(** * Version-3 OpenPGP signature packets: parse, Serialize, PrepareVerify

    A shallow embedding of
    [vendor/github.com/ProtonMail/go-crypto/openpgp/packet/signature_v3.go]
    and the properties of its wire codec.

    Conventions of the embedding:
    - a Go [byte] is a [Byte.byte]; its numeric value is [u8 b : Z] and the
      conversion [byte(x)] of an integer is [to_byte x] (low eight bits);
    - [uint32], [uint64], [int64] and [crypto.Hash] values are [Z], with the
      wrap-around of a conversion written out;
    - a slice that may be [nil] is an [option (list byte)];
    - an interface value that may be [nil] is an [option] of its
      implementation;
    - a method with a pointer receiver is a state transformer over the
      receiver (and the reader or writer it is handed), so that whatever the
      method stores before it returns an error stays visible. *)

From Stdlib Require Import String Ascii DecimalString ZArith List Bool Lia.
From Stdlib.Strings Require Import Byte.
Import ListNotations.

Local Open Scope Z_scope.

(** ** Bytes and fixed-width integers *)

(** Numeric value of a byte, [int(b)] or [uint32(b)] in the source. *)
Definition u8 (b : byte) : Z := Z.of_N (Byte.to_N b).

(** The conversion [byte(x)]: the low eight bits of [x]. *)
Definition to_byte (x : Z) : byte :=
  match Byte.of_N (Z.to_N (x mod 256)) with
  | Some b => b
  | None => x00
  end.

(** The conversion [uint32(x)] of an [int64]. *)
Definition uint32 (x : Z) : Z := x mod 2 ^ 32.

Module BigEndian.

(** [binary.BigEndian.Uint32]. *)
Definition Uint32 (b : list byte) : Z :=
  Z.lor (Z.lor (Z.lor (u8 (nth 3 b x00))
                      (Z.shiftl (u8 (nth 2 b x00)) 8))
               (Z.shiftl (u8 (nth 1 b x00)) 16))
        (Z.shiftl (u8 (nth 0 b x00)) 24).

(** [binary.BigEndian.PutUint32], as the four bytes it stores. *)
Definition PutUint32 (v : Z) : list byte :=
  [ to_byte (Z.shiftr v 24); to_byte (Z.shiftr v 16);
    to_byte (Z.shiftr v 8); to_byte v ].

(** [binary.BigEndian.Uint64]. *)
Definition Uint64 (b : list byte) : Z :=
  Z.lor (Z.lor (Z.lor (Z.lor (Z.lor (Z.lor (Z.lor
    (u8 (nth 7 b x00))
    (Z.shiftl (u8 (nth 6 b x00)) 8))
    (Z.shiftl (u8 (nth 5 b x00)) 16))
    (Z.shiftl (u8 (nth 4 b x00)) 24))
    (Z.shiftl (u8 (nth 3 b x00)) 32))
    (Z.shiftl (u8 (nth 2 b x00)) 40))
    (Z.shiftl (u8 (nth 1 b x00)) 48))
    (Z.shiftl (u8 (nth 0 b x00)) 56).

(** [binary.BigEndian.PutUint64], as the eight bytes it stores. *)
Definition PutUint64 (v : Z) : list byte :=
  [ to_byte (Z.shiftr v 56); to_byte (Z.shiftr v 48);
    to_byte (Z.shiftr v 40); to_byte (Z.shiftr v 32);
    to_byte (Z.shiftr v 24); to_byte (Z.shiftr v 16);
    to_byte (Z.shiftr v 8); to_byte v ].

End BigEndian.

(** [strconv.Itoa]. *)
Definition Itoa (n : Z) : string := NilZero.string_of_int (Z.to_int n).

(** ** Errors and outcomes *)

(** The error values the codec can return: the two string-typed errors of
    the [openpgp/errors] package and the end-of-input errors of [io]. *)
Inductive error : Type :=
| UnsupportedError (msg : string)
| InvalidArgumentError (msg : string)
| EOF
| ErrUnexpectedEOF.

(** How a call ends: it returns a value with a nil error, returns an error,
    or panics. *)
Inductive outcome (A : Type) : Type :=
| Ret (a : A)
| Err (e : error)
| Panic (msg : string).
Arguments Ret {A} a.
Arguments Err {A} e.
Arguments Panic {A} msg.

(** State and error monad: [St] is what the call can mutate. *)
Definition M (St A : Type) : Type := St -> St * outcome A.

Definition ret {St A} (a : A) : M St A := fun s => (s, Ret a).

Definition bind {St A B} (m : M St A) (k : A -> M St B) : M St B :=
  fun s =>
    match m s with
    | (s', Ret a) => k a s'
    | (s', Err e) => (s', Err e)
    | (s', Panic p) => (s', Panic p)
    end.

Definition raise {St A} (e : error) : M St A := fun s => (s, Err e).
Definition panic {St A} (msg : string) : M St A := fun s => (s, Panic msg).
Definition get {St} : M St St := fun s => (s, Ret s).
Definition modify {St} (f : St -> St) : M St unit := fun s => (f s, Ret tt).

Declare Scope go_scope.
Delimit Scope go_scope with go.
Notation "x <- m ;; k" := (bind m (fun x => k))
  (at level 61, m at next level, right associativity) : go_scope.
Notation "m ;; k" := (bind m (fun _ => k))
  (at level 61, right associativity) : go_scope.

(** The message of the runtime panic raised by a method call on a nil
    interface value. *)
Definition nil_dereference : string :=
  "runtime error: invalid memory address or nil pointer dereference".

(** ** Byte sources and sinks *)

(** An [io.Reader] over a packet body: the bytes not yet consumed. *)
Definition Reader : Type := list byte.

(** [io.ReadFull] on such a source, for a buffer of [n] bytes: the bytes
    copied, the source afterwards, and the error.  The error is [EOF] only
    when nothing was read, [ErrUnexpectedEOF] when the source ended inside
    the buffer. *)
Definition io_ReadFull (r : Reader) (n : nat) : list byte * Reader * option error :=
  if (n <=? length r)%nat then (firstn n r, skipn n r, None)
  else (r, [], Some (match r with [] => EOF | _ => ErrUnexpectedEOF end)).

(** [if err == io.EOF { err = io.ErrUnexpectedEOF }]. *)
Definition eof_unexpected (e : option error) : option error :=
  match e with
  | Some EOF => Some ErrUnexpectedEOF
  | _ => e
  end.

(** Modelled from the spec: [readFull] of packet.go is not part of the
    sources at hand; it is the read-exact primitive of the byte source, for
    which every short read is an error of the truncation class:
    [io.ReadFull] with [EOF] turned into [ErrUnexpectedEOF]. *)
Definition readFull (r : Reader) (n : nat) : list byte * Reader * option error :=
  let '(got, r', e) := io_ReadFull r n in (got, r', eof_unexpected e).

(** An [io.Writer]: [Write] hands back the sink afterwards and the error. *)
Class Writer (W : Type) : Type :=
  Write : W -> list byte -> W * option error.

(** A [bytes.Buffer]: every write is appended and none fails. *)
#[export] Instance Buffer : Writer (list byte) :=
  fun w p => (w ++ p, None).

(** ** Data model *)

(** A [time.Time], as far as the codec can tell two of them apart: seconds
    since the Unix epoch and the nanoseconds within that second. *)
Record Time : Type := mkTime { sec : Z; nsec : Z }.

(** [time.Unix(sec, 0)]. *)
Definition time_Unix (s : Z) : Time := {| sec := s; nsec := 0 |}.

(** [t.Unix()]. *)
Definition Unix (t : Time) : Z := sec t.

(** The zero [time.Time], January 1 of year 1. *)
Definition zero_Time : Time := {| sec := -62135596800; nsec := 0 |}.

(** [SignatureType] and [PublicKeyAlgorithm] are [uint8]. *)
Definition SignatureType : Type := byte.
Definition PublicKeyAlgorithm : Type := byte.

(** Modelled from the spec: the algorithm codes are declared in packet.go,
    which is not part of the sources at hand.  The spec names the closed set
    RSA (sign-and-encrypt), RSA (sign-only) and DSA and gives the first the
    wire code 1; the other two carry their codes of RFC 4880, section 9.1,
    the document the source follows. *)
Definition PubKeyAlgoRSA : PublicKeyAlgorithm := x01.
Definition PubKeyAlgoRSASignOnly : PublicKeyAlgorithm := x03.
Definition PubKeyAlgoDSA : PublicKeyAlgorithm := x11.

(** [crypto.Hash] is a [uint]. *)
Definition crypto_Hash : Type := Z.

(** A [hash.Hash]: the algorithm it computes and the bytes written to it so
    far. *)
Record hash_Hash : Type := mkHash { algorithm : crypto_Hash; absorbed : list byte }.

(** The part of [encoding.Field] the codec calls, on the implementation
    [encoding.MPI] that [parse] allocates.  The package is not part of the
    sources at hand, so it is a parameter of the development. *)
Class Encoding : Type := {
  MPI : Type;
  (** [new(encoding.MPI)] *)
  new_MPI : MPI;
  (** [Bytes()], a slice that may be nil *)
  Bytes : MPI -> option (list byte);
  (** [EncodedBytes()] *)
  EncodedBytes : MPI -> list byte;
  (** [ReadFrom(r)]: the receiver and the source afterwards, and the error *)
  ReadFrom : MPI -> Reader -> MPI * Reader * option error
}.

(** The legacy hash-identifier table of [internal/algorithm], likewise a
    parameter: each lookup returns a value and the flag [ok]. *)
Class LegacyHashTable : Type := {
  HashIdToHashWithSha1Md5 : byte -> crypto_Hash * bool;
  HashToHashIdWithSha1Md5 : crypto_Hash -> byte * bool
}.

(** The cryptographic provider behind [crypto.Hash]: which algorithms are
    linked in, and how [%v] prints one. *)
Class CryptoProvider : Type := {
  Available : crypto_Hash -> bool;
  Hash_String : crypto_Hash -> string
}.

(** [h.New()]: an accumulator that has absorbed nothing; the standard
    library panics when [h] is not available. *)
Definition Hash_New `{CryptoProvider} {St} (h : crypto_Hash) : M St hash_Hash :=
  if Available h then ret {| algorithm := h; absorbed := [] |}
  else panic ("crypto: requested hash function #" ++ Itoa h ++ " is unavailable").

Section SignatureV3.

Context {enc : Encoding} {tbl : LegacyHashTable} {prov : CryptoProvider}.

Record SignatureV3 : Type := mkSignatureV3 {
  SigType : SignatureType;
  CreationTime : Time;
  IssuerKeyId : Z;
  PubKeyAlgo : PublicKeyAlgorithm;
  Hash : crypto_Hash;
  HashTag : byte * byte;
  RSASignature : option MPI;
  DSASigR : option MPI;
  DSASigS : option MPI
}.

(** The zero value, [new(SignatureV3)]. *)
Definition new_SignatureV3 : SignatureV3 :=
  {| SigType := x00; CreationTime := zero_Time; IssuerKeyId := 0;
     PubKeyAlgo := x00; Hash := 0; HashTag := (x00, x00);
     RSASignature := None; DSASigR := None; DSASigS := None |}.

(** Assignments to one field. *)
Definition set_SigType (v : SignatureType) (s : SignatureV3) : SignatureV3 :=
  mkSignatureV3 v (CreationTime s) (IssuerKeyId s) (PubKeyAlgo s) (Hash s)
                (HashTag s) (RSASignature s) (DSASigR s) (DSASigS s).
Definition set_CreationTime (v : Time) (s : SignatureV3) : SignatureV3 :=
  mkSignatureV3 (SigType s) v (IssuerKeyId s) (PubKeyAlgo s) (Hash s)
                (HashTag s) (RSASignature s) (DSASigR s) (DSASigS s).
Definition set_IssuerKeyId (v : Z) (s : SignatureV3) : SignatureV3 :=
  mkSignatureV3 (SigType s) (CreationTime s) v (PubKeyAlgo s) (Hash s)
                (HashTag s) (RSASignature s) (DSASigR s) (DSASigS s).
Definition set_PubKeyAlgo (v : PublicKeyAlgorithm) (s : SignatureV3) : SignatureV3 :=
  mkSignatureV3 (SigType s) (CreationTime s) (IssuerKeyId s) v (Hash s)
                (HashTag s) (RSASignature s) (DSASigR s) (DSASigS s).
Definition set_Hash (v : crypto_Hash) (s : SignatureV3) : SignatureV3 :=
  mkSignatureV3 (SigType s) (CreationTime s) (IssuerKeyId s) (PubKeyAlgo s) v
                (HashTag s) (RSASignature s) (DSASigR s) (DSASigS s).
Definition set_HashTag (v : byte * byte) (s : SignatureV3) : SignatureV3 :=
  mkSignatureV3 (SigType s) (CreationTime s) (IssuerKeyId s) (PubKeyAlgo s)
                (Hash s) v (RSASignature s) (DSASigR s) (DSASigS s).
Definition set_RSASignature (v : option MPI) (s : SignatureV3) : SignatureV3 :=
  mkSignatureV3 (SigType s) (CreationTime s) (IssuerKeyId s) (PubKeyAlgo s)
                (Hash s) (HashTag s) v (DSASigR s) (DSASigS s).
Definition set_DSASigR (v : option MPI) (s : SignatureV3) : SignatureV3 :=
  mkSignatureV3 (SigType s) (CreationTime s) (IssuerKeyId s) (PubKeyAlgo s)
                (Hash s) (HashTag s) (RSASignature s) v (DSASigS s).
Definition set_DSASigS (v : option MPI) (s : SignatureV3) : SignatureV3 :=
  mkSignatureV3 (SigType s) (CreationTime s) (IssuerKeyId s) (PubKeyAlgo s)
                (Hash s) (HashTag s) (RSASignature s) (DSASigR s) v.

(** *** Steps of [parse] *)

(** [readFull(r, buf[:n])] into the local buffer: the bytes read. *)
Definition read (n : nat) : M (SignatureV3 * Reader) (list byte) :=
  fun '(sig, r) =>
    let '(got, r', e) := readFull r n in
    match e with
    | None => ((sig, r'), Ret got)
    | Some e => ((sig, r'), Err e)
    end.

(** An assignment [sig.X = v]. *)
Definition store {S : Type} (f : SignatureV3 -> SignatureV3) : M (SignatureV3 * S) unit :=
  fun '(sig, s) => ((f sig, s), Ret tt).

(** The receiver as it is now. *)
Definition load {S : Type} : M (SignatureV3 * S) SignatureV3 :=
  fun '(sig, s) => ((sig, s), Ret sig).

(** What a read of [got] leaves in a two-byte array that held [old]. *)
Definition fill2 (got : list byte) (old : byte * byte) : byte * byte :=
  match got with
  | [] => old
  | [a] => (a, snd old)
  | a :: b :: _ => (a, b)
  end.

(** [readFull(r, sig.HashTag[:2])]: the bytes land in the record, also
    those of a short read. *)
Definition read_HashTag : M (SignatureV3 * Reader) unit :=
  fun '(sig, r) =>
    let '(got, r', e) := readFull r 2 in
    let sig' := set_HashTag (fill2 got (HashTag sig)) sig in
    match e with
    | None => ((sig', r'), Ret tt)
    | Some e => ((sig', r'), Err e)
    end.

(** [sig.X = new(encoding.MPI); _, err = sig.X.ReadFrom(r)]. *)
Definition read_MPI (set : option MPI -> SignatureV3 -> SignatureV3)
  : M (SignatureV3 * Reader) unit :=
  fun '(sig, r) =>
    let '(m, r', e) := ReadFrom new_MPI r in
    match e with
    | None => ((set (Some m) sig, r'), Ret tt)
    | Some e => ((set (Some m) sig, r'), Err e)
    end.

Local Open Scope go_scope.
Local Open Scope bool_scope.

(** [func (sig *SignatureV3) parse(r io.Reader) (err error)]. *)
Definition parse : M (SignatureV3 * Reader) unit :=
  buf <- read 1 ;;
  if (u8 (nth 0 buf x00) <? 2) || (u8 (nth 0 buf x00) >? 3) then
    raise (UnsupportedError
             ("signature packet version " ++ Itoa (u8 (nth 0 buf x00))))
  else
  buf <- read 1 ;;
  if negb (u8 (nth 0 buf x00) =? 5) then
    raise (UnsupportedError
             ("invalid hashed material length " ++ Itoa (u8 (nth 0 buf x00))))
  else
  buf <- read 5 ;;
  store (set_SigType (nth 0 buf x00)) ;;
  let t := BigEndian.Uint32 (skipn 1 buf) in
  store (set_CreationTime (time_Unix t)) ;;
  buf <- read 8 ;;
  store (set_IssuerKeyId (BigEndian.Uint64 buf)) ;;
  buf <- read 2 ;;
  store (set_PubKeyAlgo (nth 0 buf x00)) ;;
  sig <- load ;;
  if negb (Byte.eqb (PubKeyAlgo sig) PubKeyAlgoRSA
           || Byte.eqb (PubKeyAlgo sig) PubKeyAlgoRSASignOnly
           || Byte.eqb (PubKeyAlgo sig) PubKeyAlgoDSA) then
    raise (UnsupportedError
             ("public key algorithm " ++ Itoa (u8 (PubKeyAlgo sig))))
  else
  let '(h, ok) := HashIdToHashWithSha1Md5 (nth 1 buf x00) in
  store (set_Hash h) ;;
  if negb ok then
    raise (UnsupportedError ("hash function " ++ Itoa (u8 (nth 1 buf x00))))
  else
  read_HashTag ;;
  sig <- load ;;
  if Byte.eqb (PubKeyAlgo sig) PubKeyAlgoRSA
     || Byte.eqb (PubKeyAlgo sig) PubKeyAlgoRSASignOnly then
    read_MPI set_RSASignature
  else if Byte.eqb (PubKeyAlgo sig) PubKeyAlgoDSA then
    read_MPI set_DSASigR ;;
    read_MPI set_DSASigS
  else
    panic "unreachable".

(** *** Steps of [Serialize] *)

Context {W : Type} {wr : Writer W}.

(** [if _, err = w.Write(p); err != nil { return }]. *)
Definition write (p : list byte) : M (SignatureV3 * W) unit :=
  fun '(sig, w) =>
    let '(w', e) := Write w p in
    match e with
    | None => ((sig, w'), Ret tt)
    | Some e => ((sig, w'), Err e)
    end.

(** A method call [f.Bytes()] on a field of interface type: a nil
    interface value has no method to call. *)
Definition call_Bytes {St} (f : option MPI) : M St (option (list byte)) :=
  match f with
  | None => panic nil_dereference
  | Some m => ret (Bytes m)
  end.

(** A method call [f.EncodedBytes()], likewise. *)
Definition call_EncodedBytes {St} (f : option MPI) : M St (list byte) :=
  match f with
  | None => panic nil_dereference
  | Some m => ret (EncodedBytes m)
  end.

(** [x == nil] on a slice. *)
Definition is_nil {A} (x : option A) : bool :=
  match x with None => true | Some _ => false end.

(** [func (sig *SignatureV3) Serialize(w io.Writer) (err error)]. *)
Definition Serialize : M (SignatureV3 * W) unit :=
  sig <- load ;;
  write (SigType sig
           :: BigEndian.PutUint32 (uint32 (Unix (CreationTime sig)))) ;;
  write (BigEndian.PutUint64 (IssuerKeyId sig)) ;;
  let '(hashId, ok) := HashToHashIdWithSha1Md5 (Hash sig) in
  if negb ok then
    raise (UnsupportedError ("hash function " ++ Hash_String (Hash sig)))
  else
  write [PubKeyAlgo sig; hashId; fst (HashTag sig); snd (HashTag sig)] ;;
  rsa <- call_Bytes (RSASignature sig) ;;
  missing <- (if is_nil rsa
              then dsa <- call_Bytes (DSASigR sig) ;; ret (is_nil dsa)
              else ret false) ;;
  if missing then
    raise (InvalidArgumentError
      "Signature: need to call Sign, SignUserId or SignKey before Serialize")
  else
  if Byte.eqb (PubKeyAlgo sig) PubKeyAlgoRSA
     || Byte.eqb (PubKeyAlgo sig) PubKeyAlgoRSASignOnly then
    p <- call_EncodedBytes (RSASignature sig) ;;
    write p
  else if Byte.eqb (PubKeyAlgo sig) PubKeyAlgoDSA then
    p <- call_EncodedBytes (DSASigR sig) ;;
    write p ;;
    p <- call_EncodedBytes (DSASigS sig) ;;
    write p
  else
    panic "impossible".

(** [func (sig *SignatureV3) PrepareVerify() (hash.Hash, error)]. *)
Definition PrepareVerify : M SignatureV3 hash_Hash :=
  sig <- get ;;
  if negb (Available (Hash sig)) then
    raise (UnsupportedError "hash function")
  else
    Hash_New (Hash sig).

End SignatureV3.

Arguments SignatureV3 {enc}.
Arguments new_SignatureV3 {enc}.

(** ** The collaborators, made concrete

    Instances of the three parameters, for running the codec on concrete
    packets. *)
Module Legacy.

(** An [encoding.MPI]: the integer's bytes and its length in bits. *)
Record mpi : Type := mkMPI { bytes : option (list byte); bitLength : Z }.

Definition new_mpi : mpi := {| bytes := None; bitLength := 0 |}.

(** Modelled from the spec: the multi-precision-integer codec is not part
    of the sources at hand.  The spec has each integer self-length-prefixed
    on the wire and read from the stream, a short read being an error; the
    prefix is the two-octet big-endian bit count of RFC 4880, section 3.2,
    followed by the integer in [(bits + 7) / 8] octets. *)
Definition mpi_ReadFrom (m : mpi) (r : Reader) : mpi * Reader * option error :=
  let '(buf, r1, e) := io_ReadFull r 2 in
  match e with
  | Some _ => (m, r1, eof_unexpected e)
  | None =>
      let bits := Z.lor (Z.shiftl (u8 (nth 0 buf x00)) 8) (u8 (nth 1 buf x00)) in
      let n := Z.to_nat ((bits + 7) / 8) in
      let '(got, r2, e2) := io_ReadFull r1 n in
      ({| bytes := Some (got ++ repeat x00 (n - List.length got));
          bitLength := bits |},
       r2, eof_unexpected e2)
  end.

(** Modelled from the spec: the write-encoded-bytes operation of the same
    codec, the two-octet bit count followed by the integer's bytes. *)
Definition mpi_EncodedBytes (m : mpi) : list byte :=
  [to_byte (Z.shiftr (bitLength m) 8); to_byte (bitLength m)]
    ++ match bytes m with Some b => b | None => [] end.

#[export] Instance mpi_Encoding : Encoding :=
  {| MPI := mpi; new_MPI := new_mpi; Bytes := bytes;
     EncodedBytes := mpi_EncodedBytes; ReadFrom := mpi_ReadFrom |}.

(** The [crypto.Hash] constants of the standard library. *)
Definition MD5 : crypto_Hash := 2.
Definition SHA1 : crypto_Hash := 3.
Definition SHA224 : crypto_Hash := 4.
Definition SHA256 : crypto_Hash := 5.
Definition SHA384 : crypto_Hash := 6.
Definition SHA512 : crypto_Hash := 7.

(** Modelled from the spec: the legacy-compatible hash-identifier table is
    not part of the sources at hand.  It maps a one-byte wire code to a
    hash algorithm and back, and accepts the two weak historical digests
    next to the modern ones; the spec gives SHA-1 the code 2, and the
    others carry their codes of RFC 4880, section 9.4. *)
Definition id_to_hash (id : byte) : crypto_Hash * bool :=
  match u8 id with
  | 1 => (MD5, true)
  | 2 => (SHA1, true)
  | 8 => (SHA256, true)
  | 9 => (SHA384, true)
  | 10 => (SHA512, true)
  | 11 => (SHA224, true)
  | _ => (0, false)
  end.

(** Modelled from the spec: the same table read from the algorithm to its
    wire code. *)
Definition hash_to_id (h : crypto_Hash) : byte * bool :=
  match h with
  | 2 => (x01, true)
  | 3 => (x02, true)
  | 5 => (x08, true)
  | 6 => (x09, true)
  | 7 => (x0a, true)
  | 4 => (x0b, true)
  | _ => (x00, false)
  end.

#[export] Instance table : LegacyHashTable :=
  {| HashIdToHashWithSha1Md5 := id_to_hash;
     HashToHashIdWithSha1Md5 := hash_to_id |}.

(** A provider with MD5 and the SHA-1 and SHA-2 families linked in;
    [String] as the standard library prints these algorithms. *)
Definition available (h : crypto_Hash) : bool := (2 <=? h) && (h <=? 7).

Definition hash_name (h : crypto_Hash) : string :=
  match h with
  | 1 => "MD4"
  | 2 => "MD5"
  | 3 => "SHA-1"
  | 4 => "SHA-224"
  | 5 => "SHA-256"
  | 6 => "SHA-384"
  | 7 => "SHA-512"
  | 8 => "MD5+SHA1"
  | 9 => "RIPEMD-160"
  | 10 => "SHA3-224"
  | 11 => "SHA3-256"
  | 12 => "SHA3-384"
  | 13 => "SHA3-512"
  | 14 => "SHA-512/224"
  | 15 => "SHA-512/256"
  | 16 => "BLAKE2s-256"
  | 17 => "BLAKE2b-256"
  | 18 => "BLAKE2b-384"
  | 19 => "BLAKE2b-512"
  | _ => "unknown hash value " ++ Itoa h
  end.

#[export] Instance provider : CryptoProvider :=
  {| Available := available; Hash_String := hash_name |}.

(** The integer 0x7F as an MPI: seven bits, one byte. *)
Definition mpi_7F : mpi := {| bytes := Some [x7f]; bitLength := 7 |}.

(** A record as [parse] produces it for an RSA signature: binary-document
    type, SHA-1, the signature value 0x7F. *)
Definition rsa_record : SignatureV3 :=
  {| SigType := x00;
     CreationTime := time_Unix 1000000000;
     IssuerKeyId := 0x0123456789abcdef;
     PubKeyAlgo := PubKeyAlgoRSA;
     Hash := SHA1;
     HashTag := (xbe, xef);
     RSASignature := Some mpi_7F;
     DSASigR := None;
     DSASigS := None |}.

(** The worked example of the wire layout: version 3, hashed length 5,
    then the body of [rsa_record].  With the two-octet bit count the
    integer 0x7F travels as 00 07 7F. *)
Definition rsa_packet : list byte :=
  [ x03; x05; x00; x3b; x9a; xca; x00;
    x01; x23; x45; x67; x89; xab; xcd; xef;
    x01; x02; xbe; xef; x00; x07; x7f ].

(** A record as [parse] produces it for a DSA signature. *)
Definition dsa_record : SignatureV3 :=
  {| SigType := x01;
     CreationTime := time_Unix 1000000000;
     IssuerKeyId := 0x0123456789abcdef;
     PubKeyAlgo := PubKeyAlgoDSA;
     Hash := SHA1;
     HashTag := (xbe, xef);
     RSASignature := None;
     DSASigR := Some mpi_7F;
     DSASigS := Some {| bytes := Some [x01; x00]; bitLength := 9 |} |}.

Definition dsa_packet : list byte :=
  [ x03; x05; x01; x3b; x9a; xca; x00;
    x01; x23; x45; x67; x89; xab; xcd; xef;
    x11; x02; xbe; xef; x00; x07; x7f; x00; x09; x01; x00 ].

(** A record fresh from a signing collaborator that stored nothing yet:
    both slots hold an allocated integer without bytes. *)
Definition unsigned_record : SignatureV3 :=
  {| SigType := x00;
     CreationTime := time_Unix 1000000000;
     IssuerKeyId := 0x0123456789abcdef;
     PubKeyAlgo := PubKeyAlgoRSA;
     Hash := SHA1;
     HashTag := (x00, x00);
     RSASignature := Some new_mpi;
     DSASigR := Some new_mpi;
     DSASigS := None |}.

End Legacy.


(** ** Vocabulary of the properties *)

(** The failure classes, told apart by the message the codec builds. *)
Definition UnsupportedVersion (e : error) : Prop :=
  exists n, e = UnsupportedError ("signature packet version " ++ Itoa n).

Definition UnsupportedHashedLength (e : error) : Prop :=
  exists n, e = UnsupportedError ("invalid hashed material length " ++ Itoa n).

Definition UnsupportedPublicKeyAlgorithm (e : error) : Prop :=
  exists n, e = UnsupportedError ("public key algorithm " ++ Itoa n).

Definition UnsupportedHashAlgorithm (e : error) : Prop :=
  exists s, e = UnsupportedError ("hash function " ++ s).

Definition MissingSignatureMaterial (e : error) : Prop :=
  e = InvalidArgumentError
        "Signature: need to call Sign, SignUserId or SignKey before Serialize".

(** A call ended by returning an error of the class [P]. *)
Definition fails_with {St A : Type} (P : error -> Prop) (res : St * outcome A) : Prop :=
  exists e, snd res = Err e /\ P e.

(** The version byte passes the check of [parse]. *)
Definition version_ok (v : byte) : Prop := u8 v = 2 \/ u8 v = 3.

(** The case list [PubKeyAlgoRSA, PubKeyAlgoRSASignOnly, PubKeyAlgoDSA]. *)
Definition algo_ok (a : PublicKeyAlgorithm) : bool :=
  Byte.eqb a PubKeyAlgoRSA || Byte.eqb a PubKeyAlgoRSASignOnly
  || Byte.eqb a PubKeyAlgoDSA.

(** The case list [PubKeyAlgoRSA, PubKeyAlgoRSASignOnly]. *)
Definition algo_rsa (a : PublicKeyAlgorithm) : bool :=
  Byte.eqb a PubKeyAlgoRSA || Byte.eqb a PubKeyAlgoRSASignOnly.

(** What a stream reader of self-delimiting fields owes its callers: it
    fails only because the source ended, what it returns depends on the
    bytes it consumed and on nothing behind them, and it cannot succeed on
    less than it consumed. *)
Class EncodingLaws (enc : Encoding) : Prop := {
  ReadFrom_error :
    forall r m r' e, ReadFrom new_MPI r = (m, r', Some e) -> e = ErrUnexpectedEOF;
  ReadFrom_local :
    forall r m r', ReadFrom new_MPI r = (m, r', None) ->
      exists c, r = c ++ r' /\
                forall r'', ReadFrom new_MPI (c ++ r'') = (m, r'', None);
  ReadFrom_short :
    forall p q m, ReadFrom new_MPI (p ++ q) = (m, [], None) -> q <> [] ->
      exists m' r', ReadFrom new_MPI p = (m', r', Some ErrUnexpectedEOF)
}.

Section Vocabulary.

Context {enc : Encoding} {tbl : LegacyHashTable}.

(** The record once [parse] has stored the fields of fixed width that
    precede the hash algorithm. *)
Definition fixed_fields (ty t0 t1 t2 t3 k0 k1 k2 k3 k4 k5 k6 k7 a : byte)
  (sig0 : SignatureV3) : SignatureV3 :=
  set_PubKeyAlgo a
    (set_IssuerKeyId (BigEndian.Uint64 [k0; k1; k2; k3; k4; k5; k6; k7])
       (set_CreationTime (time_Unix (BigEndian.Uint32 [t0; t1; t2; t3]))
          (set_SigType ty sig0))).

(** The record once the hash algorithm and the hash tag are stored too. *)
Definition header_fields (ty t0 t1 t2 t3 k0 k1 k2 k3 k4 k5 k6 k7 a : byte)
  (hh : crypto_Hash) (g0 g1 : byte) (sig0 : SignatureV3) : SignatureV3 :=
  set_HashTag (g0, g1)
    (set_Hash hh (fixed_fields ty t0 t1 t2 t3 k0 k1 k2 k3 k4 k5 k6 k7 a sig0)).

(** The runs of [parse], by the place where they leave the header: a source
    that ends inside the nineteen bytes of fixed width, one of the four
    format checks, or the algorithm-shaped tail. *)
Inductive parse_outcome (sig0 : SignatureV3)
  : Reader -> SignatureV3 * Reader * outcome unit -> Prop :=
| po_truncated r sig' :
    (List.length r < 19)%nat ->
    parse_outcome sig0 r (sig', [], Err ErrUnexpectedEOF)
| po_version v r :
    (u8 v <? 2) || (u8 v >? 3) = true ->
    parse_outcome sig0 (v :: r)
      (sig0, r,
       Err (UnsupportedError ("signature packet version " ++ Itoa (u8 v))))
| po_length v l r :
    (u8 v <? 2) || (u8 v >? 3) = false ->
    (u8 l =? 5) = false ->
    parse_outcome sig0 (v :: l :: r)
      (sig0, r,
       Err (UnsupportedError
              ("invalid hashed material length " ++ Itoa (u8 l))))
| po_algo v l ty t0 t1 t2 t3 k0 k1 k2 k3 k4 k5 k6 k7 a h r :
    (u8 v <? 2) || (u8 v >? 3) = false ->
    (u8 l =? 5) = true ->
    algo_ok a = false ->
    parse_outcome sig0
      (v :: l :: ty :: t0 :: t1 :: t2 :: t3
         :: k0 :: k1 :: k2 :: k3 :: k4 :: k5 :: k6 :: k7 :: a :: h :: r)
      (fixed_fields ty t0 t1 t2 t3 k0 k1 k2 k3 k4 k5 k6 k7 a sig0, r,
       Err (UnsupportedError ("public key algorithm " ++ Itoa (u8 a))))
| po_hash v l ty t0 t1 t2 t3 k0 k1 k2 k3 k4 k5 k6 k7 a h r hh :
    (u8 v <? 2) || (u8 v >? 3) = false ->
    (u8 l =? 5) = true ->
    algo_ok a = true ->
    HashIdToHashWithSha1Md5 h = (hh, false) ->
    parse_outcome sig0
      (v :: l :: ty :: t0 :: t1 :: t2 :: t3
         :: k0 :: k1 :: k2 :: k3 :: k4 :: k5 :: k6 :: k7 :: a :: h :: r)
      (set_Hash hh
         (fixed_fields ty t0 t1 t2 t3 k0 k1 k2 k3 k4 k5 k6 k7 a sig0), r,
       Err (UnsupportedError ("hash function " ++ Itoa (u8 h))))
| po_rsa v l ty t0 t1 t2 t3 k0 k1 k2 k3 k4 k5 k6 k7 a h g0 g1 r hh :
    (u8 v <? 2) || (u8 v >? 3) = false ->
    (u8 l =? 5) = true ->
    algo_rsa a = true ->
    HashIdToHashWithSha1Md5 h = (hh, true) ->
    parse_outcome sig0
      (v :: l :: ty :: t0 :: t1 :: t2 :: t3
         :: k0 :: k1 :: k2 :: k3 :: k4 :: k5 :: k6 :: k7
         :: a :: h :: g0 :: g1 :: r)
      (read_MPI set_RSASignature
         (header_fields ty t0 t1 t2 t3 k0 k1 k2 k3 k4 k5 k6 k7 a hh g0 g1 sig0,
          r))
| po_dsa v l ty t0 t1 t2 t3 k0 k1 k2 k3 k4 k5 k6 k7 a h g0 g1 r hh :
    (u8 v <? 2) || (u8 v >? 3) = false ->
    (u8 l =? 5) = true ->
    algo_rsa a = false ->
    Byte.eqb a PubKeyAlgoDSA = true ->
    HashIdToHashWithSha1Md5 h = (hh, true) ->
    parse_outcome sig0
      (v :: l :: ty :: t0 :: t1 :: t2 :: t3
         :: k0 :: k1 :: k2 :: k3 :: k4 :: k5 :: k6 :: k7
         :: a :: h :: g0 :: g1 :: r)
      (bind (read_MPI set_DSASigR) (fun _ => read_MPI set_DSASigS)
         (header_fields ty t0 t1 t2 t3 k0 k1 k2 k3 k4 k5 k6 k7 a hh g0 g1 sig0,
          r)).

(** The slots of a record that carries the material of an RSA signature,
    and of one that carries the material of a DSA signature. *)
Definition rsa_shape (sig : SignatureV3) : Prop :=
  RSASignature sig <> None /\ DSASigR sig = None /\ DSASigS sig = None.

Definition dsa_shape (sig : SignatureV3) : Prop :=
  RSASignature sig = None /\ DSASigR sig <> None /\ DSASigS sig <> None.

(** The bytes a [bytes.Buffer] holds after [Serialize] ran on it. *)
Definition written {prov : CryptoProvider} (sig : SignatureV3) (w0 : list byte)
  : list byte :=
  snd (fst (Serialize (sig, w0))).

(** The thirteen bytes [Serialize] writes first: signature type, creation
    time, issuer key id. *)
Definition hashed_and_issuer (sig : SignatureV3) : list byte :=
  SigType sig :: BigEndian.PutUint32 (uint32 (Unix (CreationTime sig)))
    ++ BigEndian.PutUint64 (IssuerKeyId sig).

(** Public-key algorithm, hash id and hash tag, its third write. *)
Definition algorithms_and_tag (sig : SignatureV3) (hashId : byte) : list byte :=
  [PubKeyAlgo sig; hashId; fst (HashTag sig); snd (HashTag sig)].

End Vocabulary.

(** ** Bytes and big-endian integers *)

Arguments u8 : simpl never.
Arguments Itoa : simpl never.
Arguments BigEndian.Uint32 : simpl never.
Arguments BigEndian.Uint64 : simpl never.
Arguments BigEndian.PutUint32 : simpl never.
Arguments BigEndian.PutUint64 : simpl never.
Arguments uint32 : simpl never.
Arguments Byte.eqb : simpl never.
Arguments Z.ltb : simpl never.
Arguments Z.gtb : simpl never.
Arguments Z.eqb : simpl never.
Arguments String.append : simpl never.

Lemma u8_range (b : byte) : 0 <= u8 b < 256.
Proof.
  unfold u8. pose proof (Byte.to_N_bounded b). lia.
Qed.

Lemma u8_to_byte (x : Z) : u8 (to_byte x) = x mod 256.
Proof.
  unfold u8, to_byte.
  assert (Hr : 0 <= x mod 256 < 256) by (apply Z.mod_pos_bound; lia).
  destruct (Byte.of_N (Z.to_N (x mod 256))) as [b|] eqn:E.
  - apply Byte.to_of_N in E. rewrite E. lia.
  - apply Byte.of_N_None_iff in E. lia.
Qed.

Lemma to_byte_u8 (b : byte) : to_byte (u8 b) = b.
Proof.
  unfold to_byte, u8. pose proof (Byte.to_N_bounded b).
  rewrite Z.mod_small by lia. rewrite N2Z.id, Byte.of_to_N. reflexivity.
Qed.

Lemma u8_inj (a b : byte) : u8 a = u8 b -> a = b.
Proof.
  intros H. rewrite <- (to_byte_u8 a), <- (to_byte_u8 b), H. reflexivity.
Qed.

(** An [or] of a value with one shifted clear of it is their sum. *)
Lemma lor_shiftl_add (lo hi k : Z) :
  0 <= k -> 0 <= lo < 2 ^ k -> Z.lor lo (Z.shiftl hi k) = lo + hi * 2 ^ k.
Proof.
  intros Hk Hlo.
  assert (Hland : Z.land lo (Z.shiftl hi k) = 0).
  { apply Z.bits_inj'. intros n Hn.
    rewrite Z.land_spec, Z.bits_0.
    destruct (Z.lt_ge_cases n k) as [Hlt|Hge].
    - rewrite (Z.shiftl_spec_low hi k n Hlt). apply andb_false_r.
    - rewrite <- (Z.mod_small lo (2 ^ k)) by lia.
      rewrite Z.mod_pow2_bits_high by lia. reflexivity. }
  rewrite <- Z.lxor_lor by exact Hland.
  rewrite <- Z.add_nocarry_lxor by exact Hland.
  rewrite Z.shiftl_mul_pow2 by lia. reflexivity.
Qed.

Lemma Uint32_sum (b0 b1 b2 b3 : byte) :
  BigEndian.Uint32 [b0; b1; b2; b3]
  = u8 b3 + u8 b2 * 2 ^ 8 + u8 b1 * 2 ^ 16 + u8 b0 * 2 ^ 24.
Proof.
  unfold BigEndian.Uint32. cbn [nth].
  pose proof (u8_range b0). pose proof (u8_range b1).
  pose proof (u8_range b2). pose proof (u8_range b3).
  rewrite (lor_shiftl_add _ _ 8) by lia.
  rewrite (lor_shiftl_add _ _ 16) by lia.
  rewrite (lor_shiftl_add _ _ 24) by lia.
  reflexivity.
Qed.

Lemma Uint64_sum (b0 b1 b2 b3 b4 b5 b6 b7 : byte) :
  BigEndian.Uint64 [b0; b1; b2; b3; b4; b5; b6; b7]
  = u8 b7 + u8 b6 * 2 ^ 8 + u8 b5 * 2 ^ 16 + u8 b4 * 2 ^ 24
    + u8 b3 * 2 ^ 32 + u8 b2 * 2 ^ 40 + u8 b1 * 2 ^ 48 + u8 b0 * 2 ^ 56.
Proof.
  unfold BigEndian.Uint64. cbn [nth].
  pose proof (u8_range b0). pose proof (u8_range b1).
  pose proof (u8_range b2). pose proof (u8_range b3).
  pose proof (u8_range b4). pose proof (u8_range b5).
  pose proof (u8_range b6). pose proof (u8_range b7).
  rewrite (lor_shiftl_add _ _ 8) by lia.
  rewrite (lor_shiftl_add _ _ 16) by lia.
  rewrite (lor_shiftl_add _ _ 24) by lia.
  rewrite (lor_shiftl_add _ _ 32) by lia.
  rewrite (lor_shiftl_add _ _ 40) by lia.
  rewrite (lor_shiftl_add _ _ 48) by lia.
  rewrite (lor_shiftl_add _ _ 56) by lia.
  reflexivity.
Qed.

Lemma Uint32_range (b0 b1 b2 b3 : byte) :
  0 <= BigEndian.Uint32 [b0; b1; b2; b3] < 2 ^ 32.
Proof.
  rewrite Uint32_sum.
  pose proof (u8_range b0). pose proof (u8_range b1).
  pose proof (u8_range b2). pose proof (u8_range b3). lia.
Qed.

Lemma Uint32_PutUint32 (v : Z) :
  0 <= v < 2 ^ 32 -> BigEndian.Uint32 (BigEndian.PutUint32 v) = v.
Proof.
  intros Hv. unfold BigEndian.PutUint32. rewrite Uint32_sum.
  rewrite !u8_to_byte, !Z.shiftr_div_pow2 by lia.
  Z.to_euclidean_division_equations; lia.
Qed.

Lemma Uint64_PutUint64 (v : Z) :
  0 <= v < 2 ^ 64 -> BigEndian.Uint64 (BigEndian.PutUint64 v) = v.
Proof.
  intros Hv. unfold BigEndian.PutUint64. rewrite Uint64_sum.
  rewrite !u8_to_byte, !Z.shiftr_div_pow2 by lia.
  Z.to_euclidean_division_equations; lia.
Qed.

Lemma PutUint32_Uint32 (b0 b1 b2 b3 : byte) :
  BigEndian.PutUint32 (BigEndian.Uint32 [b0; b1; b2; b3]) = [b0; b1; b2; b3].
Proof.
  rewrite Uint32_sum. unfold BigEndian.PutUint32.
  pose proof (u8_range b0). pose proof (u8_range b1).
  pose proof (u8_range b2). pose proof (u8_range b3).
  repeat f_equal; apply u8_inj; rewrite u8_to_byte, ?Z.shiftr_div_pow2 by lia;
    Z.to_euclidean_division_equations; lia.
Qed.

Lemma PutUint64_Uint64 (b0 b1 b2 b3 b4 b5 b6 b7 : byte) :
  BigEndian.PutUint64 (BigEndian.Uint64 [b0; b1; b2; b3; b4; b5; b6; b7])
  = [b0; b1; b2; b3; b4; b5; b6; b7].
Proof.
  rewrite Uint64_sum. unfold BigEndian.PutUint64.
  pose proof (u8_range b0). pose proof (u8_range b1).
  pose proof (u8_range b2). pose proof (u8_range b3).
  pose proof (u8_range b4). pose proof (u8_range b5).
  pose proof (u8_range b6). pose proof (u8_range b7).
  repeat f_equal; apply u8_inj; rewrite u8_to_byte, ?Z.shiftr_div_pow2 by lia;
    Z.to_euclidean_division_equations; lia.
Qed.

(** The version check of [parse], on the numeric value of the byte. *)
Lemma version_check (v : byte) :
  (u8 v <? 2) || (u8 v >? 3) = false <-> version_ok v.
Proof.
  unfold version_ok. rewrite orb_false_iff, Z.ltb_ge, Z.gtb_ltb, Z.ltb_ge. lia.
Qed.

Lemma length_check (l : byte) : (u8 l =? 5) = true <-> l = x05.
Proof.
  rewrite Z.eqb_eq. split.
  - intros H. apply u8_inj. exact H.
  - intros ->. reflexivity.
Qed.

Lemma byte_eqb_eq (a b : byte) : Byte.eqb a b = true <-> a = b.
Proof.
  split.
  - apply Byte.byte_dec_bl.
  - apply Byte.byte_dec_lb.
Qed.

Lemma algo_rsa_spec (a : byte) :
  algo_rsa a = true <-> a = PubKeyAlgoRSA \/ a = PubKeyAlgoRSASignOnly.
Proof.
  unfold algo_rsa. rewrite orb_true_iff, !byte_eqb_eq. reflexivity.
Qed.

Lemma algo_ok_spec (a : byte) :
  algo_ok a = true
  <-> a = PubKeyAlgoRSA \/ a = PubKeyAlgoRSASignOnly \/ a = PubKeyAlgoDSA.
Proof.
  unfold algo_ok. rewrite !orb_true_iff, !byte_eqb_eq. tauto.
Qed.

(** ** The runs of [parse] *)

Section ParseRuns.

Context {enc : Encoding} {tbl : LegacyHashTable}.

Ltac source_too_short := cbn; apply po_truncated; cbn; lia.

(** Every run of [parse] is one of the seven of [parse_outcome]. *)
Lemma parse_view (sig0 : SignatureV3) (r : Reader) :
  parse_outcome sig0 r (parse (sig0, r)).
Proof.
  unfold parse.
  destruct r as [|v r]; [source_too_short|]. cbn.
  destruct ((u8 v <? 2) || (u8 v >? 3)) eqn:Ev; [now apply po_version|].
  destruct r as [|l r]; [source_too_short|]. cbn.
  destruct (u8 l =? 5) eqn:El; cbn; [|now apply po_length].
  destruct r as [|ty r]; [source_too_short|].
  destruct r as [|t0 r]; [source_too_short|].
  destruct r as [|t1 r]; [source_too_short|].
  destruct r as [|t2 r]; [source_too_short|].
  destruct r as [|t3 r]; [source_too_short|].
  destruct r as [|k0 r]; [source_too_short|].
  destruct r as [|k1 r]; [source_too_short|].
  destruct r as [|k2 r]; [source_too_short|].
  destruct r as [|k3 r]; [source_too_short|].
  destruct r as [|k4 r]; [source_too_short|].
  destruct r as [|k5 r]; [source_too_short|].
  destruct r as [|k6 r]; [source_too_short|].
  destruct r as [|k7 r]; [source_too_short|].
  destruct r as [|a r]; [source_too_short|].
  destruct r as [|h r]; [source_too_short|].
  cbn.
  fold (fixed_fields ty t0 t1 t2 t3 k0 k1 k2 k3 k4 k5 k6 k7 a sig0).
  fold (algo_ok a).
  destruct (algo_ok a) eqn:Ea; cbn; [|now apply po_algo].
  destruct (HashIdToHashWithSha1Md5 h) as [hh ok] eqn:Eh.
  destruct ok; cbn; [|now apply po_hash].
  destruct r as [|g0 r]; [source_too_short|].
  destruct r as [|g1 r]; [source_too_short|].
  cbn.
  fold (header_fields ty t0 t1 t2 t3 k0 k1 k2 k3 k4 k5 k6 k7 a hh g0 g1 sig0).
  fold (algo_rsa a).
  destruct (algo_rsa a) eqn:Er.
  - now apply po_rsa.
  - unfold algo_ok in Ea. fold (algo_rsa a) in Ea. rewrite Er in Ea.
    cbn in Ea. rewrite Ea. now apply po_dsa.
Qed.

(** The three ways out of reading one integer. *)
Lemma read_MPI_eq (set : option MPI -> SignatureV3 -> SignatureV3)
  (s : SignatureV3) (r : Reader) :
  read_MPI set (s, r)
  = (set (Some (fst (fst (ReadFrom new_MPI r)))) s,
     snd (fst (ReadFrom new_MPI r)),
     match snd (ReadFrom new_MPI r) with
     | None => Ret tt
     | Some e => Err e
     end).
Proof.
  unfold read_MPI. destruct (ReadFrom new_MPI r) as [[m r'] [e|]]; reflexivity.
Qed.

(** Reading the pair: the second integer is read from where the first one
    ended, and only when the first was read. *)
Lemma read_DSA_eq (s : SignatureV3) (r : Reader) :
  bind (read_MPI set_DSASigR) (fun _ => read_MPI set_DSASigS) (s, r)
  = match ReadFrom new_MPI r with
    | (mr, r1, Some e) => (set_DSASigR (Some mr) s, r1, Err e)
    | (mr, r1, None) =>
        match ReadFrom new_MPI r1 with
        | (ms, r2, Some e) =>
            (set_DSASigS (Some ms) (set_DSASigR (Some mr) s), r2, Err e)
        | (ms, r2, None) =>
            (set_DSASigS (Some ms) (set_DSASigR (Some mr) s), r2, Ret tt)
        end
    end.
Proof.
  unfold bind, read_MPI.
  destruct (ReadFrom new_MPI r) as [[mr r1] [e|]]; [reflexivity|].
  destruct (ReadFrom new_MPI r1) as [[ms r2] [e|]]; reflexivity.
Qed.

(** A header that passes the four checks leads to the tail. *)
Lemma parse_header (sig0 : SignatureV3)
  (v ty t0 t1 t2 t3 k0 k1 k2 k3 k4 k5 k6 k7 a h g0 g1 : byte)
  (hh : crypto_Hash) (tail : Reader) :
  version_ok v -> algo_ok a = true ->
  HashIdToHashWithSha1Md5 h = (hh, true) ->
  parse (sig0,
         v :: x05 :: ty :: t0 :: t1 :: t2 :: t3
           :: k0 :: k1 :: k2 :: k3 :: k4 :: k5 :: k6 :: k7
           :: a :: h :: g0 :: g1 :: tail)
  = (if algo_rsa a then read_MPI set_RSASignature
     else bind (read_MPI set_DSASigR) (fun _ => read_MPI set_DSASigS))
      (header_fields ty t0 t1 t2 t3 k0 k1 k2 k3 k4 k5 k6 k7 a hh g0 g1 sig0,
       tail).
Proof.
  intros Hv Ha Hh. apply version_check in Hv.
  unfold parse. cbn. rewrite Hv. cbn.
  change (u8 x05 =? 5) with true. cbn.
  fold (algo_ok a). rewrite Ha. cbn. rewrite Hh. cbn.
  fold (algo_rsa a).
  fold (header_fields ty t0 t1 t2 t3 k0 k1 k2 k3 k4 k5 k6 k7 a hh g0 g1 sig0).
  destruct (algo_rsa a) eqn:Er; [reflexivity|].
  unfold algo_ok in Ha. fold (algo_rsa a) in Ha. rewrite Er in Ha.
  cbn in Ha. rewrite Ha. reflexivity.
Qed.

End ParseRuns.

(** ** Reading from a source that ends *)

Lemma io_ReadFull_ok (r : Reader) (n : nat) got r' :
  io_ReadFull r n = (got, r', None) ->
  r = got ++ r' /\ List.length got = n.
Proof.
  unfold io_ReadFull. destruct (n <=? List.length r)%nat eqn:E; [|discriminate].
  intros H. injection H as <- <-. apply Nat.leb_le in E. split.
  - symmetry. apply firstn_skipn.
  - apply firstn_length_le. exact E.
Qed.

Lemma io_ReadFull_app (c r : Reader) :
  io_ReadFull (c ++ r) (List.length c) = (c, r, None).
Proof.
  unfold io_ReadFull. rewrite length_app.
  replace (List.length c <=? List.length c + List.length r)%nat with true
    by (symmetry; apply Nat.leb_le; lia).
  rewrite firstn_app, Nat.sub_diag, firstn_all, firstn_O, app_nil_r.
  rewrite skipn_app, Nat.sub_diag, skipn_all. reflexivity.
Qed.

Lemma io_ReadFull_short (r : Reader) (n : nat) :
  (List.length r < n)%nat ->
  exists e, io_ReadFull r n = (r, [], Some e) /\ eof_unexpected (Some e) = Some ErrUnexpectedEOF.
Proof.
  intros H. unfold io_ReadFull.
  replace (n <=? List.length r)%nat with false
    by (symmetry; apply Nat.leb_gt; lia).
  destruct r; eexists; split; reflexivity.
Qed.

Lemma io_ReadFull_error (r : Reader) (n : nat) got r' e :
  io_ReadFull r n = (got, r', Some e) -> eof_unexpected (Some e) = Some ErrUnexpectedEOF.
Proof.
  unfold io_ReadFull. destruct (n <=? List.length r)%nat; [discriminate|].
  intros H. injection H as _ _ <-. destruct r; reflexivity.
Qed.

(** ** The concrete integer codec keeps the laws *)

Module LegacyLaws.
Import Legacy.

Lemma mpi_ReadFrom_ok (m0 : mpi) (r : Reader) m r' :
  mpi_ReadFrom m0 r = (m, r', None) ->
  exists b0 b1 body,
    r = b0 :: b1 :: body ++ r'
    /\ List.length body
       = Z.to_nat ((Z.lor (Z.shiftl (u8 b0) 8) (u8 b1) + 7) / 8)
    /\ m = {| bytes := Some body;
              bitLength := Z.lor (Z.shiftl (u8 b0) 8) (u8 b1) |}.
Proof.
  unfold mpi_ReadFrom.
  destruct (io_ReadFull r 2) as [[buf r1] [e|]] eqn:E1.
  - destruct e; discriminate.
  - apply io_ReadFull_ok in E1 as [-> Hlen].
    destruct buf as [|b0 [|b1 [|? ?]]]; try discriminate. cbn [nth].
    set (bits := Z.lor (Z.shiftl (u8 b0) 8) (u8 b1)).
    destruct (io_ReadFull r1 (Z.to_nat ((bits + 7) / 8))) as [[got r2] e2] eqn:E2.
    intros H. injection H as <- <- He.
    destruct e2 as [e2|]; [destruct e2; discriminate|].
    apply io_ReadFull_ok in E2 as [-> Hgot].
    exists b0, b1, got. rewrite Hgot, Nat.sub_diag. cbn [repeat].
    rewrite app_nil_r. auto.
Qed.

Lemma mpi_ReadFrom_app (m0 : mpi) (b0 b1 : byte) (body r : Reader) :
  List.length body = Z.to_nat ((Z.lor (Z.shiftl (u8 b0) 8) (u8 b1) + 7) / 8) ->
  mpi_ReadFrom m0 (b0 :: b1 :: body ++ r)
  = ({| bytes := Some body;
        bitLength := Z.lor (Z.shiftl (u8 b0) 8) (u8 b1) |}, r, None).
Proof.
  intros Hlen. unfold mpi_ReadFrom.
  change (io_ReadFull (b0 :: b1 :: body ++ r) 2)
    with (io_ReadFull ([b0; b1] ++ (body ++ r)) (List.length [b0; b1])).
  rewrite io_ReadFull_app. cbn [nth]. rewrite <- Hlen.
  rewrite io_ReadFull_app, Nat.sub_diag. cbn [repeat]. rewrite app_nil_r.
  reflexivity.
Qed.

Lemma mpi_ReadFrom_error (m0 : mpi) (r : Reader) m r' e :
  mpi_ReadFrom m0 r = (m, r', Some e) -> e = ErrUnexpectedEOF.
Proof.
  unfold mpi_ReadFrom.
  destruct (io_ReadFull r 2) as [[buf r1] [e1|]] eqn:E1.
  - apply io_ReadFull_error in E1. rewrite E1. congruence.
  - destruct (io_ReadFull r1 _) as [[got r2] [e2|]] eqn:E2.
    + apply io_ReadFull_error in E2. rewrite E2. congruence.
    + discriminate.
Qed.

Lemma mpi_ReadFrom_short (m0 : mpi) (p q : Reader) m :
  mpi_ReadFrom m0 (p ++ q) = (m, [], None) -> q <> [] ->
  exists m' r', mpi_ReadFrom m0 p = (m', r', Some ErrUnexpectedEOF).
Proof.
  intros H Hq. apply mpi_ReadFrom_ok in H as (b0 & b1 & body & Hr & Hlen & _).
  rewrite app_nil_r in Hr.
  assert (Hp : (List.length p < 2 + List.length body)%nat).
  { apply (f_equal (@List.length byte)) in Hr. rewrite length_app in Hr.
    cbn [List.length] in Hr. destruct q; [contradiction|]. cbn [List.length] in Hr. lia. }
  unfold mpi_ReadFrom.
  destruct p as [|p0 [|p1 p]].
  - cbn. eauto.
  - cbn. eauto.
  - cbn in Hr. injection Hr as -> -> Hr.
    change (io_ReadFull (b0 :: b1 :: p) 2)
      with (io_ReadFull ([b0; b1] ++ p) (List.length [b0; b1])).
    rewrite io_ReadFull_app. cbn [nth]. rewrite <- Hlen.
    destruct (io_ReadFull_short p (List.length body)) as (e & -> & ->).
    { cbn [List.length] in Hp. lia. }
    eauto.
Qed.

#[export] Instance mpi_laws : EncodingLaws mpi_Encoding.
Proof.
  split.
  - intros r m r' e. exact (mpi_ReadFrom_error new_mpi r m r' e).
  - intros r m r' H. cbn in H.
    apply mpi_ReadFrom_ok in H as (b0 & b1 & body & -> & Hlen & ->).
    exists (b0 :: b1 :: body). split; [reflexivity|].
    intros r''. exact (mpi_ReadFrom_app new_mpi b0 b1 body r'' Hlen).
  - intros p q m. exact (mpi_ReadFrom_short new_mpi p q m).
Qed.
(** The table read backwards gives the code it was entered under. *)
Lemma table_inverse (id : byte) (hh : crypto_Hash) :
  id_to_hash id = (hh, true) -> hash_to_id hh = (id, true).
Proof.
  destruct id; vm_compute; intros H; try discriminate H;
    injection H as <-; reflexivity.
Qed.

(** The two octets of a bit count, recovered from the count. *)
Lemma bit_count_bytes (b0 b1 : byte) :
  to_byte (Z.shiftr (Z.lor (Z.shiftl (u8 b0) 8) (u8 b1)) 8) = b0
  /\ to_byte (Z.lor (Z.shiftl (u8 b0) 8) (u8 b1)) = b1.
Proof.
  pose proof (u8_range b0). pose proof (u8_range b1).
  rewrite Z.lor_comm, lor_shiftl_add by lia.
  split; apply u8_inj; rewrite u8_to_byte, ?Z.shiftr_div_pow2 by lia;
    Z.to_euclidean_division_equations; lia.
Qed.

(** An integer read off a source encodes to the bytes it was read from. *)
Lemma codec_inverse (r : Reader) (m : mpi) :
  mpi_ReadFrom new_mpi r = (m, [], None) ->
  mpi_EncodedBytes m = r /\ bytes m <> None.
Proof.
  intros H. apply mpi_ReadFrom_ok in H as (b0 & b1 & body & -> & _ & ->).
  unfold mpi_EncodedBytes. cbn [bytes bitLength].
  destruct (bit_count_bytes b0 b1) as [-> ->].
  rewrite app_nil_r. split; [reflexivity|discriminate].
Qed.

End LegacyLaws.

(** ** Format checks *)

Section Gates.

Context {enc : Encoding} {tbl : LegacyHashTable} {laws : EncodingLaws enc}.

Lemma read_MPI_error (set : option MPI -> SignatureV3 -> SignatureV3)
  (s s' : SignatureV3) (r r' : Reader) (e : error) :
  read_MPI set (s, r) = (s', r', Err e) -> e = ErrUnexpectedEOF.
Proof.
  unfold read_MPI. destruct (ReadFrom new_MPI r) as [[m r1] [e1|]] eqn:E.
  - intros H. injection H as _ _ <-. eapply ReadFrom_error. exact E.
  - discriminate.
Qed.

Lemma read_DSA_error (s s' : SignatureV3) (r r' : Reader) (e : error) :
  bind (read_MPI set_DSASigR) (fun _ => read_MPI set_DSASigS) (s, r)
  = (s', r', Err e) -> e = ErrUnexpectedEOF.
Proof.
  rewrite read_DSA_eq.
  destruct (ReadFrom new_MPI r) as [[mr r1] [e1|]] eqn:E1.
  - intros H. injection H as _ _ <-. eapply ReadFrom_error. exact E1.
  - destruct (ReadFrom new_MPI r1) as [[ms r2] [e2|]] eqn:E2.
    + intros H. injection H as _ _ <-. eapply ReadFrom_error. exact E2.
    + discriminate.
Qed.

(** The error of a failed run, by the place of the failure. *)
Lemma parse_error (sig0 : SignatureV3) (r : Reader) st (e : error) :
  parse (sig0, r) = (st, Err e) ->
  e = ErrUnexpectedEOF
  \/ (exists v rest, r = v :: rest /\ ~ version_ok v
        /\ e = UnsupportedError ("signature packet version " ++ Itoa (u8 v)))
  \/ (exists v l rest, r = v :: l :: rest /\ version_ok v /\ l <> x05
        /\ e = UnsupportedError ("invalid hashed material length " ++ Itoa (u8 l)))
  \/ (exists a, e = UnsupportedError ("public key algorithm " ++ Itoa (u8 a)))
  \/ (exists h, e = UnsupportedError ("hash function " ++ Itoa (u8 h))).
Proof.
  intros H. pose proof (parse_view sig0 r) as V. rewrite H in V.
  destruct st as [s r'].
  inversion V; subst.
  - left. reflexivity.
  - right. left. eexists _, _. split; [reflexivity|]. split; [|reflexivity].
    rewrite <- version_check. congruence.
  - right. right. left. eexists _, _, _. split; [reflexivity|].
    split; [now apply version_check|]. split; [|reflexivity].
    rewrite <- length_check. congruence.
  - right. right. right. left. eexists. reflexivity.
  - right. right. right. right. eexists. reflexivity.
  - left. eapply (read_MPI_error set_RSASignature). eassumption.
  - left. eapply read_DSA_error. eassumption.
Qed.

(** Two messages of the codec that start differently are different. *)
Ltac other_message H :=
  exfalso; injection H as H; revert H; unfold String.append; discriminate.

(** C6: [parse] fails with the unsupported-version error exactly when the
    source has a first byte and that byte is neither 2 nor 3; it fails with
    the unsupported-hashed-length error exactly when the version byte was
    accepted and the second byte is there and is not 5; and a source that
    starts with version byte 2 is parsed exactly as the same source with
    version byte 3. *)
Theorem parse_version_and_length_gates (sig0 : SignatureV3) (r : Reader) :
  (fails_with UnsupportedVersion (parse (sig0, r))
   <-> exists v rest, r = v :: rest /\ ~ version_ok v)
  /\ (fails_with UnsupportedHashedLength (parse (sig0, r))
      <-> exists v l rest, r = v :: l :: rest /\ version_ok v /\ l <> x05)
  /\ (forall rest, parse (sig0, x02 :: rest) = parse (sig0, x03 :: rest)).
Proof.
  split; [|split].
  - split.
    + intros [e [He [n Hn]]].
      destruct (parse (sig0, r)) as [st o] eqn:E. cbn in He. subst o.
      destruct (parse_error _ _ _ _ E) as [H|[H|[H|[H|H]]]].
      * subst e. discriminate.
      * destruct H as (v & rest & -> & Hv & _). eauto.
      * destruct H as (v & l & rest & _ & _ & _ & ->).
        other_message Hn.
      * destruct H as (a & ->).
        other_message Hn.
      * destruct H as (a & ->).
        other_message Hn.
    + intros (v & rest & -> & Hv).
      rewrite <- version_check in Hv. apply not_false_is_true in Hv.
      unfold parse. cbn. rewrite Hv.
      eexists. split; [reflexivity|]. eexists. reflexivity.
  - split.
    + intros [e [He [n Hn]]].
      destruct (parse (sig0, r)) as [st o] eqn:E. cbn in He. subst o.
      destruct (parse_error _ _ _ _ E) as [H|[H|[H|[H|H]]]].
      * subst e. discriminate.
      * destruct H as (v & rest & _ & _ & ->).
        other_message Hn.
      * destruct H as (v & l & rest & -> & Hv & Hl & _). eauto 6.
      * destruct H as (a & ->).
        other_message Hn.
      * destruct H as (a & ->).
        other_message Hn.
    + intros (v & l & rest & -> & Hv & Hl).
      apply version_check in Hv.
      assert (El : (u8 l =? 5) = false).
      { apply not_true_is_false. rewrite length_check. exact Hl. }
      unfold parse. cbn. rewrite Hv. cbn. rewrite El. cbn.
      eexists. split; [reflexivity|]. eexists. reflexivity.
  - intros rest. unfold parse. cbn.
    rewrite (proj2 (version_check x02)) by (left; reflexivity).
    rewrite (proj2 (version_check x03)) by (right; reflexivity).
    reflexivity.
Qed.

End Gates.

(** ** Truncated sources *)

Section Truncation.

Context {enc : Encoding} {tbl : LegacyHashTable} {laws : EncodingLaws enc}.

(** A single integer cut short. *)
Lemma read_MPI_short (set : option MPI -> SignatureV3 -> SignatureV3)
  (s s1 : SignatureV3) (p q : Reader) :
  read_MPI set (s, p ++ q) = (s1, [], Ret tt) -> q <> [] ->
  exists s' r', read_MPI set (s, p) = (s', r', Err ErrUnexpectedEOF).
Proof.
  unfold read_MPI.
  destruct (ReadFrom new_MPI (p ++ q)) as [[m r1] [e|]] eqn:E; [discriminate|].
  intros H Hq. injection H as _ ->.
  destruct (ReadFrom_short p q m E Hq) as (m' & r' & ->). eauto.
Qed.

(** The pair cut short, inside the first integer or inside the second. *)
Lemma read_DSA_short (s s1 : SignatureV3) (p q : Reader) :
  bind (read_MPI set_DSASigR) (fun _ => read_MPI set_DSASigS) (s, p ++ q)
  = (s1, [], Ret tt) ->
  q <> [] ->
  exists s' r',
    bind (read_MPI set_DSASigR) (fun _ => read_MPI set_DSASigS) (s, p)
    = (s', r', Err ErrUnexpectedEOF).
Proof.
  rewrite !read_DSA_eq.
  destruct (ReadFrom new_MPI (p ++ q)) as [[mr r1] [e|]] eqn:E1; [discriminate|].
  destruct (ReadFrom new_MPI r1) as [[ms r2] [e|]] eqn:E2; [discriminate|].
  intros H Hq. injection H as _ ->.
  destruct (ReadFrom_local _ _ _ E1) as (c & Hc & Hloc).
  apply app_eq_app in Hc as [l [[-> ->]|[-> ->]]].
  - (* the first integer is whole, the cut is in the second *)
    rewrite Hloc.
    destruct (ReadFrom_short l q ms E2 Hq) as (m' & r' & ->). eauto.
  - destruct l as [|x l].
    + (* the cut is between the two *)
      specialize (Hloc []). rewrite !app_nil_r in Hloc. rewrite Hloc.
      destruct (ReadFrom_short [] r1 ms E2 Hq) as (m' & r' & ->). eauto.
    + (* the cut is in the first *)
      specialize (Hloc []). rewrite app_nil_r in Hloc.
      destruct (ReadFrom_short p (x :: l) mr Hloc) as (m' & r' & ->);
        [discriminate|]. eauto.
Qed.

Lemma algo_rsa_ok (a : byte) : algo_rsa a = true -> algo_ok a = true.
Proof.
  unfold algo_ok. fold (algo_rsa a). intros ->. reflexivity.
Qed.

Lemma algo_dsa_ok (a : byte) : Byte.eqb a PubKeyAlgoDSA = true -> algo_ok a = true.
Proof.
  unfold algo_ok. intros ->. apply orb_true_r.
Qed.

Ltac same_bytes H := cbn [app] in H; injection H; clear H; intros; subst.

(** C4: when [parse] accepts a packet and consumes all of it, then on every
    source that ends earlier, that is, on every proper prefix of the packet
    and so on one that stops one byte short of the end of any field, it
    fails with [ErrUnexpectedEOF], the truncation error; it does not succeed
    and it does not report a format error. *)
Theorem parse_truncated (sig0 sig : SignatureV3) (bs p q : Reader) :
  parse (sig0, bs) = (sig, [], Ret tt) ->
  bs = p ++ q -> q <> [] ->
  exists sig' r', parse (sig0, p) = (sig', r', Err ErrUnexpectedEOF).
Proof.
  intros Hok -> Hq.
  pose proof (parse_view sig0 (p ++ q)) as V. rewrite Hok in V.
  pose proof (parse_view sig0 p) as Vp.
  destruct (parse (sig0, p)) as [[sp rp] op] eqn:Ep.
  inversion V as
    [ | | | |
    | v l ty t0 t1 t2 t3 k0 k1 k2 k3 k4 k5 k6 k7 a h g0 g1 r hh Hv Hl Ha Hh Hbs Hrun
    | v l ty t0 t1 t2 t3 k0 k1 k2 k3 k4 k5 k6 k7 a h g0 g1 r hh Hv Hl Ha Hd Hh Hbs Hrun ].
  - pose proof (algo_rsa_ok a Ha) as Hao.
    inversion Vp; subst; try (same_bytes Hbs; congruence).
    + eauto.
    + same_bytes Hbs.
      match goal with
      | H1 : HashIdToHashWithSha1Md5 ?h = (?x, true),
        H2 : HashIdToHashWithSha1Md5 ?h = (?y, true) |- _ =>
          assert (x = y) by congruence; subst
      end.
      eapply (read_MPI_short set_RSASignature); eassumption.
  - pose proof (algo_dsa_ok a Hd) as Hao.
    inversion Vp; subst; try (same_bytes Hbs; congruence).
    + eauto.
    + same_bytes Hbs.
      match goal with
      | H1 : HashIdToHashWithSha1Md5 ?h = (?x, true),
        H2 : HashIdToHashWithSha1Md5 ?h = (?y, true) |- _ =>
          assert (x = y) by congruence; subst
      end.
      eapply read_DSA_short; eassumption.
Qed.

End Truncation.

(** ** The algorithm-shaped tail *)

Section Tail.

Context {enc : Encoding} {tbl : LegacyHashTable}.

(** C5: on a source with an accepted version byte, the length byte 5 and
    the fixed fields up to the hash-algorithm byte, a public-key-algorithm
    byte other than those of RSA, RSA sign-only and DSA (0 among them) makes
    [parse] fail with the unsupported-public-key-algorithm error, whatever
    the hash byte is.  The source is left exactly behind the hash-algorithm
    byte, so neither the hash tag nor any byte of the signature material was
    read, and the three material slots of the record are as they were. *)
Theorem parse_unsupported_algorithm (sig0 : SignatureV3)
  (v ty t0 t1 t2 t3 k0 k1 k2 k3 k4 k5 k6 k7 a h : byte) (rest : Reader) :
  version_ok v ->
  a <> PubKeyAlgoRSA -> a <> PubKeyAlgoRSASignOnly -> a <> PubKeyAlgoDSA ->
  parse (sig0,
         v :: x05 :: ty :: t0 :: t1 :: t2 :: t3
           :: k0 :: k1 :: k2 :: k3 :: k4 :: k5 :: k6 :: k7 :: a :: h :: rest)
  = (fixed_fields ty t0 t1 t2 t3 k0 k1 k2 k3 k4 k5 k6 k7 a sig0, rest,
     Err (UnsupportedError ("public key algorithm " ++ Itoa (u8 a)))).
Proof.
  intros Hv H1 H2 H3. apply version_check in Hv.
  assert (Ha : algo_ok a = false).
  { apply not_true_is_false. rewrite algo_ok_spec. tauto. }
  unfold parse. cbn. rewrite Hv. cbn.
  change (u8 x05 =? 5) with true. cbn.
  fold (algo_ok a). rewrite Ha. reflexivity.
Qed.

(** The two algorithm bytes are read in one call: a source that ends
    right behind the public-key-algorithm byte fails on that read, before
    the byte is looked at. *)
Lemma parse_ends_behind_algorithm (sig0 : SignatureV3)
  (v ty t0 t1 t2 t3 k0 k1 k2 k3 k4 k5 k6 k7 a : byte) :
  version_ok v ->
  parse (sig0,
         [ v; x05; ty; t0; t1; t2; t3; k0; k1; k2; k3; k4; k5; k6; k7; a ])
  = (set_IssuerKeyId (BigEndian.Uint64 [k0; k1; k2; k3; k4; k5; k6; k7])
       (set_CreationTime (time_Unix (BigEndian.Uint32 [t0; t1; t2; t3]))
          (set_SigType ty sig0)),
     [], Err ErrUnexpectedEOF).
Proof.
  intros Hv. apply version_check in Hv.
  unfold parse. cbn. rewrite Hv. cbn.
  change (u8 x05 =? 5) with true. reflexivity.
Qed.

(** C7: for a DSA packet whose header passes the checks, [parse] reads the
    first integer into [DSASigR]; if that read fails it returns the error
    with [DSASigS] untouched and the source where the first read left it;
    otherwise it reads the second integer into [DSASigS] from where the
    first one ended. *)
Theorem parse_DSA_order (sig0 : SignatureV3)
  (v ty t0 t1 t2 t3 k0 k1 k2 k3 k4 k5 k6 k7 h g0 g1 : byte)
  (hh : crypto_Hash) (tail : Reader) :
  version_ok v ->
  HashIdToHashWithSha1Md5 h = (hh, true) ->
  parse (sig0,
         v :: x05 :: ty :: t0 :: t1 :: t2 :: t3
           :: k0 :: k1 :: k2 :: k3 :: k4 :: k5 :: k6 :: k7
           :: PubKeyAlgoDSA :: h :: g0 :: g1 :: tail)
  = let s := header_fields ty t0 t1 t2 t3 k0 k1 k2 k3 k4 k5 k6 k7
                           PubKeyAlgoDSA hh g0 g1 sig0 in
    match ReadFrom new_MPI tail with
    | (mr, r1, Some e) => (set_DSASigR (Some mr) s, r1, Err e)
    | (mr, r1, None) =>
        match ReadFrom new_MPI r1 with
        | (ms, r2, Some e) =>
            (set_DSASigS (Some ms) (set_DSASigR (Some mr) s), r2, Err e)
        | (ms, r2, None) =>
            (set_DSASigS (Some ms) (set_DSASigR (Some mr) s), r2, Ret tt)
        end
    end.
Proof.
  intros Hv Hh.
  etransitivity.
  - exact (parse_header sig0 v ty t0 t1 t2 t3 k0 k1 k2 k3 k4 k5 k6 k7
             PubKeyAlgoDSA h g0 g1 hh tail Hv eq_refl Hh).
  - change (algo_rsa PubKeyAlgoDSA) with false. cbv iota.
    apply read_DSA_eq.
Qed.
(** C8: after [parse] returned without error on a record whose three
    material slots were unset, exactly one shape is populated, and which one
    is decided by the public-key algorithm it stored: for the two RSA codes
    [RSASignature] is set and the DSA pair is unset; for DSA both [DSASigR]
    and [DSASigS] are set and [RSASignature] is unset. *)
Theorem parse_one_shape (sig0 sig : SignatureV3) (r r' : Reader) :
  RSASignature sig0 = None -> DSASigR sig0 = None -> DSASigS sig0 = None ->
  parse (sig0, r) = (sig, r', Ret tt) ->
  (algo_rsa (PubKeyAlgo sig) = true /\ rsa_shape sig)
  \/ (PubKeyAlgo sig = PubKeyAlgoDSA /\ dsa_shape sig).
Proof.
  intros H1 H2 H3 Hok.
  pose proof (parse_view sig0 r) as V. rewrite Hok in V.
  inversion V as
    [ | | | |
    | v l ty t0 t1 t2 t3 k0 k1 k2 k3 k4 k5 k6 k7 a h g0 g1 r0 hh Hv Hl Ha Hh Hbs Hrun
    | v l ty t0 t1 t2 t3 k0 k1 k2 k3 k4 k5 k6 k7 a h g0 g1 r0 hh Hv Hl Ha Hd Hh Hbs Hrun ].
  - left. change (read_MPI set_RSASignature
        (header_fields ty t0 t1 t2 t3 k0 k1 k2 k3 k4 k5 k6 k7 a hh g0 g1 sig0, r0)
        = (sig, r', Ret tt)) in Hrun.
    rewrite read_MPI_eq in Hrun. injection Hrun as <- _ _.
    cbn. unfold rsa_shape. cbn. repeat split; try assumption. discriminate.
  - right. change (bind (read_MPI set_DSASigR) (fun _ => read_MPI set_DSASigS)
        (header_fields ty t0 t1 t2 t3 k0 k1 k2 k3 k4 k5 k6 k7 a hh g0 g1 sig0, r0)
        = (sig, r', Ret tt)) in Hrun.
    rewrite read_DSA_eq in Hrun.
    destruct (ReadFrom new_MPI r0) as [[mr r1] [e|]]; [discriminate|].
    destruct (ReadFrom new_MPI r1) as [[ms r2] [e|]]; [discriminate|].
    injection Hrun as <- _. cbn. unfold dsa_shape. cbn.
    apply byte_eqb_eq in Hd.
    repeat split; try assumption; discriminate.
Qed.

End Tail.

(** ** Serialize on a buffer *)

Section Serializing.

Context {enc : Encoding} {tbl : LegacyHashTable} {prov : CryptoProvider}.

(** What [Serialize] does after its first two writes, by the hash lookup
    and the state of the slots. *)
Lemma Serialize_eq (sig : SignatureV3) (w0 : list byte) :
  Serialize (sig, w0)
  = let w13 := w0 ++ hashed_and_issuer sig in
    let '(hashId, ok) := HashToHashIdWithSha1Md5 (Hash sig) in
    if negb ok then
      (sig, w13, Err (UnsupportedError ("hash function " ++ Hash_String (Hash sig))))
    else
      let w17 := w13 ++ algorithms_and_tag sig hashId in
      match RSASignature sig with
      | None => (sig, w17, Panic nil_dereference)
      | Some mr =>
          let missing :=
            match Bytes mr with
            | Some _ => Ret false
            | None =>
                match DSASigR sig with
                | None => Panic nil_dereference
                | Some md => Ret (is_nil (Bytes md))
                end
            end in
          match missing with
          | Panic p => (sig, w17, Panic p)
          | Err e => (sig, w17, Err e)
          | Ret true =>
              (sig, w17,
               Err (InvalidArgumentError
                 "Signature: need to call Sign, SignUserId or SignKey before Serialize"))
          | Ret false =>
              if algo_rsa (PubKeyAlgo sig) then
                (sig, w17 ++ EncodedBytes mr, Ret tt)
              else if Byte.eqb (PubKeyAlgo sig) PubKeyAlgoDSA then
                match DSASigR sig with
                | None => (sig, w17, Panic nil_dereference)
                | Some md =>
                    match DSASigS sig with
                    | None => (sig, w17 ++ EncodedBytes md, Panic nil_dereference)
                    | Some ms =>
                        (sig, (w17 ++ EncodedBytes md) ++ EncodedBytes ms, Ret tt)
                    end
                end
              else (sig, w17, Panic "impossible")
          end
      end.
Proof.
  unfold Serialize, hashed_and_issuer, algorithms_and_tag. cbn.
  rewrite <- app_assoc. cbn [app].
  destruct (HashToHashIdWithSha1Md5 (Hash sig)) as [hashId ok].
  destruct ok; cbn; [|reflexivity].
  destruct (RSASignature sig) as [mr|]; cbn; [|reflexivity].
  fold (algo_rsa (PubKeyAlgo sig)).
  destruct (Bytes mr) as [b|]; cbn.
  - destruct (algo_rsa (PubKeyAlgo sig)); cbn; [reflexivity|].
    destruct (Byte.eqb (PubKeyAlgo sig) PubKeyAlgoDSA); cbn; [|reflexivity].
    destruct (DSASigR sig) as [md|]; cbn; [|reflexivity].
    destruct (DSASigS sig) as [ms|]; cbn; reflexivity.
  - destruct (DSASigR sig) as [md|]; cbn; [|reflexivity].
    destruct (Bytes md) as [b|]; cbn; [|reflexivity].
    destruct (algo_rsa (PubKeyAlgo sig)); cbn; [reflexivity|].
    destruct (Byte.eqb (PubKeyAlgo sig) PubKeyAlgoDSA); cbn; [|reflexivity].
    destruct (DSASigS sig) as [ms|]; cbn; reflexivity.
Qed.

(** Whatever happens later, the first two writes are in the buffer. *)
Lemma written_eq (sig : SignatureV3) (w0 : list byte) :
  exists tl, written sig w0 = w0 ++ hashed_and_issuer sig ++ tl.
Proof.
  unfold written. rewrite Serialize_eq. cbv zeta.
  repeat match goal with
         | |- context [match ?x with _ => _ end] => destruct x
         end;
    cbn [fst snd negb]; rewrite <- ?app_assoc;
    eexists; reflexivity.
Qed.

(** A record whose RSA slot is unset, be it fresh or parsed from a DSA
    packet, takes [Serialize] through its third write and then into the
    method call on the nil slot. *)
Lemma Serialize_nil_RSA_slot (sig : SignatureV3) (w0 : list byte) (id : byte) :
  HashToHashIdWithSha1Md5 (Hash sig) = (id, true) ->
  RSASignature sig = None ->
  Serialize (sig, w0)
  = (sig, (w0 ++ hashed_and_issuer sig) ++ algorithms_and_tag sig id,
     Panic nil_dereference).
Proof.
  intros Hh Hr. rewrite Serialize_eq. cbv zeta. rewrite Hh, Hr. reflexivity.
Qed.

Lemma uint32_range (x : Z) : 0 <= uint32 x < 2 ^ 32.
Proof. unfold uint32. apply Z.mod_pos_bound. lia. Qed.

Lemma uint32_wraps (s k : Z) : uint32 (s + k * 2 ^ 32) = uint32 s.
Proof. unfold uint32. apply Z_mod_plus_full. Qed.

(** C2: for every record, and whether or not it goes on to succeed,
    [Serialize] appends first the signature-type byte, then the four bytes
    of the creation time and the eight of the issuer key id: the first byte
    it emits is the signature type, which [parse] expects at offset 2, and
    neither a version byte nor a hashed-material-length byte precedes it.
    So [parse], handed the output as it is, takes the signature type for
    the version byte and rejects it unless it happens to be 2 or 3. *)
Theorem Serialize_starts_with_signature_type (sig : SignatureV3) (w0 : list byte) :
  (exists tl,
     written sig w0
     = w0 ++ SigType sig
          :: BigEndian.PutUint32 (uint32 (Unix (CreationTime sig)))
          ++ BigEndian.PutUint64 (IssuerKeyId sig) ++ tl)
  /\ hd_error (written sig []) = Some (SigType sig)
  /\ (forall sig0 : SignatureV3,
        ~ version_ok (SigType sig) ->
        fails_with UnsupportedVersion (parse (sig0, written sig []))).
Proof.
  split; [|split].
  - destruct (written_eq sig w0) as [tl ->]. exists tl.
    unfold hashed_and_issuer. cbn [app]. rewrite <- app_assoc. reflexivity.
  - destruct (written_eq sig []) as [tl ->]. reflexivity.
  - intros sig0 Hv. destruct (written_eq sig []) as [tl ->].
    rewrite <- version_check in Hv. apply not_false_is_true in Hv.
    unfold hashed_and_issuer. cbn [app]. unfold parse. cbn. rewrite Hv.
    eexists. split; [reflexivity|]. eexists. reflexivity.
Qed.

(** C3 (as amended): when the hash algorithm has no legacy wire code,
    [Serialize] fails with the unsupported-hash error after its first two
    writes.  When it has one, and the RSA slot and the DSA r slot each hold
    a field whose [Bytes()] is nil, [Serialize] fails with the
    invalid-argument error that asks for a signing call, whatever the other
    fields are; the buffer then holds the seventeen bytes of fixed width and
    nothing of the algorithm-shaped tail. *)
Theorem Serialize_without_material (sig : SignatureV3) (w0 : list byte) (id : byte) :
  (HashToHashIdWithSha1Md5 (Hash sig) = (id, false) ->
   Serialize (sig, w0)
   = (sig, w0 ++ hashed_and_issuer sig,
      Err (UnsupportedError ("hash function " ++ Hash_String (Hash sig)))))
  /\ (HashToHashIdWithSha1Md5 (Hash sig) = (id, true) ->
      forall mr md,
        RSASignature sig = Some mr -> Bytes mr = None ->
        DSASigR sig = Some md -> Bytes md = None ->
        Serialize (sig, w0)
        = (sig, (w0 ++ hashed_and_issuer sig) ++ algorithms_and_tag sig id,
           Err (InvalidArgumentError
             "Signature: need to call Sign, SignUserId or SignKey before Serialize"))).
Proof.
  split.
  - intros Hh. rewrite Serialize_eq. cbv zeta. rewrite Hh. reflexivity.
  - intros Hh mr md Hr Hrb Hd Hdb. rewrite Serialize_eq. cbv zeta.
    rewrite Hh, Hr, Hrb, Hd, Hdb. reflexivity.
Qed.

(** C10: [PrepareVerify] leaves the record as it is; when the hash
    algorithm of the record is available it returns the accumulator of that
    algorithm with nothing absorbed, when it is not it returns the
    unsupported error, and it fails in no other case. *)
Theorem PrepareVerify_spec (sig : SignatureV3) :
  fst (PrepareVerify sig) = sig
  /\ (Available (Hash sig) = true ->
      snd (PrepareVerify sig) = Ret {| algorithm := Hash sig; absorbed := [] |})
  /\ (Available (Hash sig) = false ->
      snd (PrepareVerify sig) = Err (UnsupportedError "hash function"))
  /\ ((exists e, snd (PrepareVerify sig) = Err e) <-> Available (Hash sig) = false).
Proof.
  unfold PrepareVerify, Hash_New. cbn.
  destruct (Available (Hash sig)); cbn; repeat split; try discriminate; auto.
  - intros [e He]. discriminate.
  - eauto.
Qed.
(** C1 (as amended): round trip of RSA records.  For a record with an RSA
    algorithm code, its RSA integer set and the DSA pair unset, a key id
    within 64 bits, a hash algorithm the table maps to a code and back, and
    an integer the codec reads back from its own encoding: [Serialize]
    succeeds, and [parse] on a fresh record, fed a version byte 2 or 3, the
    length byte 5 and then the bytes [Serialize] wrote, returns the record
    with every field as it was, except that the creation time is the whole
    seconds modulo 2^32.  Conversely, when the table and the codec invert
    their readings, a packet that [parse] accepts in full as an RSA
    signature is reproduced by [Serialize] from its third byte on. *)
Theorem RSA_round_trip :
  (forall (sig : SignatureV3) (m : MPI) (id v : byte) (rest : list byte),
      algo_rsa (PubKeyAlgo sig) = true ->
      RSASignature sig = Some m -> Bytes m <> None ->
      DSASigR sig = None -> DSASigS sig = None ->
      0 <= IssuerKeyId sig < 2 ^ 64 ->
      HashToHashIdWithSha1Md5 (Hash sig) = (id, true) ->
      HashIdToHashWithSha1Md5 id = (Hash sig, true) ->
      ReadFrom new_MPI (EncodedBytes m ++ rest) = (m, rest, None) ->
      version_ok v ->
      exists body,
        Serialize (sig, []) = (sig, body, Ret tt)
        /\ parse (new_SignatureV3, v :: x05 :: body ++ rest)
           = (set_CreationTime
                (time_Unix (uint32 (Unix (CreationTime sig)))) sig,
              rest, Ret tt))
  /\ (forall (sig0 sig : SignatureV3) (v l : byte) (body : list byte),
        (forall id hh, HashIdToHashWithSha1Md5 id = (hh, true) ->
                       HashToHashIdWithSha1Md5 hh = (id, true)) ->
        (forall r m, ReadFrom new_MPI r = (m, [], None) ->
                     EncodedBytes m = r /\ Bytes m <> None) ->
        parse (sig0, v :: l :: body) = (sig, [], Ret tt) ->
        algo_rsa (PubKeyAlgo sig) = true ->
        Serialize (sig, []) = (sig, body, Ret tt)).
Proof.
  split.
  - intros sig m id v rest.
    intros Ha Hm Hb Hr Hs Hk Hid Hh Hread Hv.
    eexists. split.
    + rewrite Serialize_eq. cbv zeta. rewrite Hid, Hm. cbn [negb].
      destruct (Bytes m) as [b|]; [|contradiction]. rewrite Ha. reflexivity.
    + unfold hashed_and_issuer, algorithms_and_tag.
      unfold BigEndian.PutUint32 at 1. unfold BigEndian.PutUint64 at 1.
      cbn [app].
      etransitivity.
      { apply parse_header with (hh := Hash sig); try assumption.
        apply algo_rsa_ok. exact Ha. }
      rewrite Ha, read_MPI_eq, Hread. cbn [fst snd].
      unfold header_fields, fixed_fields.
      change [to_byte (Z.shiftr ?x 56); to_byte (Z.shiftr ?x 48);
              to_byte (Z.shiftr ?x 40); to_byte (Z.shiftr ?x 32);
              to_byte (Z.shiftr ?x 24); to_byte (Z.shiftr ?x 16);
              to_byte (Z.shiftr ?x 8); to_byte ?x]
        with (BigEndian.PutUint64 x).
      change [to_byte (Z.shiftr ?x 24); to_byte (Z.shiftr ?x 16);
              to_byte (Z.shiftr ?x 8); to_byte ?x]
        with (BigEndian.PutUint32 x).
      rewrite Uint32_PutUint32 by apply uint32_range.
      rewrite Uint64_PutUint64 by exact Hk.
      destruct sig as [ty t k a hh [g0 g1] rs dr ds]. cbn in *. subst.
      reflexivity.
  - intros sig0 sig v l body.
    intros Htbl Hcodec Hok Ha.
    assert (V : parse_outcome sig0 (v :: l :: body) (sig, [], Ret tt))
      by (rewrite <- Hok; apply parse_view).
    inversion V as
      [ | | | |
      | v' l' ty t0 t1 t2 t3 k0 k1 k2 k3 k4 k5 k6 k7 a h g0 g1 r0 hh Hv Hl Har Hh Hbs Hrun
      | v' l' ty t0 t1 t2 t3 k0 k1 k2 k3 k4 k5 k6 k7 a h g0 g1 r0 hh Hv Hl Har Hd Hh Hbs Hrun ].
    + change (read_MPI set_RSASignature
          (header_fields ty t0 t1 t2 t3 k0 k1 k2 k3 k4 k5 k6 k7 a hh g0 g1 sig0, r0)
          = (sig, [], Ret tt)) in Hrun.
      rewrite read_MPI_eq in Hrun.
      destruct (ReadFrom new_MPI r0) as [[m r1] [e|]] eqn:E; [discriminate|].
      cbn [fst snd] in Hrun. injection Hrun as Hsig ->.
      destruct (Hcodec _ _ E) as [Henc Hb].
      rewrite Serialize_eq. cbv zeta. subst sig. cbn in Ha |- *.
      rewrite (Htbl _ _ Hh). cbn [negb].
      destruct (Bytes m) as [b|]; [|contradiction]. rewrite Ha.
      unfold hashed_and_issuer, algorithms_and_tag. cbn.
      unfold uint32. rewrite Z.mod_small by apply Uint32_range.
      rewrite PutUint32_Uint32, PutUint64_Uint64, Henc. reflexivity.
    + exfalso.
      change (bind (read_MPI set_DSASigR) (fun _ => read_MPI set_DSASigS)
          (header_fields ty t0 t1 t2 t3 k0 k1 k2 k3 k4 k5 k6 k7 a hh g0 g1 sig0, r0)
          = (sig, [], Ret tt)) in Hrun.
      rewrite read_DSA_eq in Hrun.
      destruct (ReadFrom new_MPI r0) as [[mr r1] [e|]]; [discriminate|].
      destruct (ReadFrom new_MPI r1) as [[ms r2] [e|]]; [discriminate|].
      injection Hrun as <- _. cbn in Ha. congruence.
Qed.

(** Once the version byte and the length byte are accepted and the five
    bytes of hashed material are there, [parse] has stored the creation
    time, and nothing it does afterwards, nor any way it ends, changes
    it. *)
Lemma parse_stores_time (sig0 : SignatureV3) (v ty b0 b1 b2 b3 : byte)
  (rest : Reader) :
  version_ok v ->
  CreationTime
    (fst (fst (parse (sig0, v :: x05 :: ty :: b0 :: b1 :: b2 :: b3 :: rest))))
  = time_Unix (BigEndian.Uint32 [b0; b1; b2; b3]).
Proof.
  intros Hv. apply version_check in Hv.
  unfold parse. cbn. rewrite Hv. cbn.
  change (u8 x05 =? 5) with true. cbn.
  destruct rest as [|k0 rest]; [reflexivity|].
  destruct rest as [|k1 rest]; [reflexivity|].
  destruct rest as [|k2 rest]; [reflexivity|].
  destruct rest as [|k3 rest]; [reflexivity|].
  destruct rest as [|k4 rest]; [reflexivity|].
  destruct rest as [|k5 rest]; [reflexivity|].
  destruct rest as [|k6 rest]; [reflexivity|].
  destruct rest as [|k7 rest]; [reflexivity|].
  destruct rest as [|a rest]; [reflexivity|].
  destruct rest as [|h rest]; [reflexivity|].
  cbn. fold (algo_ok a).
  destruct (algo_ok a); cbn; [|reflexivity].
  destruct (HashIdToHashWithSha1Md5 h) as [hh ok].
  destruct ok; cbn; [|reflexivity].
  destruct rest as [|g0 rest]; [reflexivity|].
  destruct rest as [|g1 rest]; [reflexivity|].
  cbn. fold (algo_rsa a).
  destruct (algo_rsa a).
  - rewrite read_MPI_eq. reflexivity.
  - destruct (Byte.eqb a PubKeyAlgoDSA); [|reflexivity].
    rewrite read_DSA_eq.
    destruct (ReadFrom new_MPI rest) as [[mr r1] [e|]]; [reflexivity|].
    destruct (ReadFrom new_MPI r1) as [[ms r2] [e|]]; reflexivity.
Qed.

(** C9: [Serialize] writes, right behind the signature type, four bytes
    that are the big-endian digits of the creation time's seconds modulo
    2^32; a record that differs only in the nanoseconds, or by a multiple of
    2^32 seconds, is written and answered in exactly the same way.  [parse],
    on every source with an accepted version byte, the length byte 5 and
    the five bytes of hashed material, stores as creation time the
    big-endian value of the four bytes behind the signature type, as whole
    seconds, however the call ends; fed what [Serialize] wrote, behind those
    two bytes, it stores the seconds of the record modulo 2^32.  And a
    [parse] that returned without error read its creation time from there. *)
Theorem creation_time_on_the_wire (sig : SignatureV3) (w0 : list byte) :
  (exists b0 b1 b2 b3 tl,
      written sig w0 = w0 ++ SigType sig :: b0 :: b1 :: b2 :: b3 :: tl
      /\ u8 b3 + u8 b2 * 2 ^ 8 + u8 b1 * 2 ^ 16 + u8 b0 * 2 ^ 24
         = sec (CreationTime sig) mod 2 ^ 32)
  /\ (forall ns k,
        let sig' :=
          set_CreationTime
            {| sec := sec (CreationTime sig) + k * 2 ^ 32; nsec := ns |} sig in
        written sig' w0 = written sig w0
        /\ snd (Serialize (sig', w0)) = snd (Serialize (sig, w0)))
  /\ (forall sig0 v ty b0 b1 b2 b3 rest,
        version_ok v ->
        CreationTime
          (fst (fst (parse (sig0,
                            v :: x05 :: ty :: b0 :: b1 :: b2 :: b3 :: rest))))
        = {| sec := u8 b3 + u8 b2 * 2 ^ 8 + u8 b1 * 2 ^ 16 + u8 b0 * 2 ^ 24;
             nsec := 0 |})
  /\ (forall sig0 v rest,
        version_ok v ->
        CreationTime
          (fst (fst (parse (sig0, v :: x05 :: written sig [] ++ rest))))
        = {| sec := sec (CreationTime sig) mod 2 ^ 32; nsec := 0 |})
  /\ (forall sig0 r sig' r',
        parse (sig0, r) = (sig', r', Ret tt) ->
        exists v l ty b0 b1 b2 b3 rest,
          r = v :: l :: ty :: b0 :: b1 :: b2 :: b3 :: rest
          /\ CreationTime sig'
             = {| sec := u8 b3 + u8 b2 * 2 ^ 8 + u8 b1 * 2 ^ 16 + u8 b0 * 2 ^ 24;
                  nsec := 0 |}).
Proof.
  split; [|split; [|split; [|split]]].
  - destruct (written_eq sig w0) as [tl ->].
    unfold hashed_and_issuer, BigEndian.PutUint32 at 1. cbn [app].
    eexists _, _, _, _, _. split; [reflexivity|].
    rewrite <- Uint32_sum.
    change [to_byte (Z.shiftr ?x 24); to_byte (Z.shiftr ?x 16);
            to_byte (Z.shiftr ?x 8); to_byte ?x]
      with (BigEndian.PutUint32 x).
    rewrite Uint32_PutUint32 by apply uint32_range. reflexivity.
  - intros ns k sig'.
    assert (Hh : hashed_and_issuer sig' = hashed_and_issuer sig).
    { unfold hashed_and_issuer, sig'. cbn [SigType CreationTime IssuerKeyId
        set_CreationTime Unix sec]. rewrite uint32_wraps. reflexivity. }
    unfold written. rewrite !Serialize_eq. cbv zeta. rewrite Hh.
    unfold algorithms_and_tag, sig'.
    cbn [Hash HashTag PubKeyAlgo RSASignature DSASigR DSASigS set_CreationTime].
    repeat match goal with
           | |- context [match ?x with _ => _ end] => destruct x
           end; split; reflexivity.
  - intros sig0 v ty b0 b1 b2 b3 rest Hv.
    rewrite (parse_stores_time sig0 v ty b0 b1 b2 b3 rest Hv), Uint32_sum.
    reflexivity.
  - intros sig0 v rest Hv.
    destruct (written_eq sig []) as [tl ->].
    unfold hashed_and_issuer, BigEndian.PutUint32 at 1. cbn [app].
    rewrite (parse_stores_time sig0 v _ _ _ _ _ _ Hv).
    change [to_byte (Z.shiftr ?x 24); to_byte (Z.shiftr ?x 16);
            to_byte (Z.shiftr ?x 8); to_byte ?x]
      with (BigEndian.PutUint32 x).
    rewrite Uint32_PutUint32 by apply uint32_range. reflexivity.
  - intros sig0 r sig' r' Hok.
    assert (V : parse_outcome sig0 r (sig', r', Ret tt))
      by (rewrite <- Hok; apply parse_view).
    inversion V as
      [ | | | |
      | v l ty t0 t1 t2 t3 k0 k1 k2 k3 k4 k5 k6 k7 a h g0 g1 r0 hh Hv Hl Har Hh Hbs Hrun
      | v l ty t0 t1 t2 t3 k0 k1 k2 k3 k4 k5 k6 k7 a h g0 g1 r0 hh Hv Hl Har Hd Hh Hbs Hrun ];
      exists v, l, ty, t0, t1, t2, t3; eexists; (split; [reflexivity|]);
      rewrite <- Uint32_sum.
    + change (read_MPI set_RSASignature
        (header_fields ty t0 t1 t2 t3 k0 k1 k2 k3 k4 k5 k6 k7 a hh g0 g1 sig0, r0)
        = (sig', r', Ret tt)) in Hrun.
      rewrite read_MPI_eq in Hrun. injection Hrun as <- _ _. reflexivity.
    + change (bind (read_MPI set_DSASigR) (fun _ => read_MPI set_DSASigS)
        (header_fields ty t0 t1 t2 t3 k0 k1 k2 k3 k4 k5 k6 k7 a hh g0 g1 sig0, r0)
        = (sig', r', Ret tt)) in Hrun.
      rewrite read_DSA_eq in Hrun.
      destruct (ReadFrom new_MPI r0) as [[mr r1] [e|]]; [discriminate|].
      destruct (ReadFrom new_MPI r1) as [[ms r2] [e|]]; [discriminate|].
      injection Hrun as <- _. reflexivity.
Qed.

End Serializing.

(** ** The properties on worked packets *)

Module Worked.

Import Legacy LegacyLaws.

(** The worked example of C1: the RSA record goes out and comes back behind
    the bytes 03 05, and the worked packet is re-encoded from its third
    byte on. *)
Lemma RSA_round_trip_worked_example :
  (exists body,
      Serialize (rsa_record, []) = (rsa_record, body, Ret tt)
      /\ parse (new_SignatureV3, x03 :: x05 :: body ++ [])
         = (set_CreationTime
              (time_Unix (uint32 (Unix (CreationTime rsa_record)))) rsa_record,
            [], Ret tt))
  /\ parse (new_SignatureV3, rsa_packet) = (rsa_record, [], Ret tt)
  /\ Serialize (rsa_record, []) = (rsa_record, skipn 2 rsa_packet, Ret tt).
Proof.
  split; [|split].
  - apply (proj1 RSA_round_trip rsa_record mpi_7F x02 x03 []);
      try reflexivity.
    + discriminate.
    + cbn. lia.
    + right. reflexivity.
  - reflexivity.
  - apply (proj2 RSA_round_trip new_SignatureV3 rsa_record x03 x05
             (skipn 2 rsa_packet)).
    + exact table_inverse.
    + exact codec_inverse.
    + reflexivity.
    + reflexivity.
Defined.

(** Against C1 as stated: what [Serialize] writes for the record of the
    worked packet is that packet without its first two bytes, and [parse]
    takes its first byte, the signature type 0, for a version. *)
Lemma Serialize_output_is_no_packet :
  Serialize (rsa_record, []) = (rsa_record, skipn 2 rsa_packet, Ret tt)
  /\ parse (new_SignatureV3, skipn 2 rsa_packet)
     = (new_SignatureV3, skipn 3 rsa_packet,
        Err (UnsupportedError "signature packet version 0"))
  /\ parse (new_SignatureV3, rsa_packet) = (rsa_record, [], Ret tt)
  /\ written rsa_record [] <> rsa_packet.
Proof.
  repeat split; try reflexivity. vm_compute. discriminate.
Qed.

(** C3 on a record whose two slots hold integers without bytes. *)
Lemma Serialize_without_material_example :
  Serialize (unsigned_record, [])
  = (unsigned_record,
     [ x00; x3b; x9a; xca; x00;
       x01; x23; x45; x67; x89; xab; xcd; xef;
       x01; x02; x00; x00 ],
     Err (InvalidArgumentError
       "Signature: need to call Sign, SignUserId or SignKey before Serialize")).
Proof.
  refine (proj2 (Serialize_without_material unsigned_record [] x02) _
            new_mpi new_mpi _ _ _ _);
    reflexivity.
Defined.

(** Against C3 as stated: the zero record has no signature material, and
    [Serialize] fails on its hash algorithm before it looks for any. *)
Lemma fresh_record_fails_on_hash :
  RSASignature new_SignatureV3 = None
  /\ DSASigR new_SignatureV3 = None
  /\ DSASigS new_SignatureV3 = None
  /\ Serialize (new_SignatureV3, [])
     = (new_SignatureV3,
        [ x00; x88; x6e; x09; x00;
          x00; x00; x00; x00; x00; x00; x00; x00 ],
        Err (UnsupportedError "hash function unknown hash value 0"))
  /\ ~ fails_with MissingSignatureMaterial (Serialize (new_SignatureV3, [])).
Proof.
  repeat split; try reflexivity.
  intros (e & He & Hm). vm_compute in He. rewrite Hm in He. discriminate.
Qed.

(** C4 on the worked packet without its last byte. *)
Lemma parse_truncated_example :
  exists sig' r',
    parse (new_SignatureV3, removelast rsa_packet)
    = (sig', r', Err ErrUnexpectedEOF).
Proof.
  apply (parse_truncated new_SignatureV3 rsa_record rsa_packet
           (removelast rsa_packet) [x7f]).
  - reflexivity.
  - reflexivity.
  - discriminate.
Defined.

(** C5 on the worked packet with the algorithm byte 0. *)
Lemma parse_algorithm_zero :
  parse (new_SignatureV3,
         [ x03; x05; x00; x3b; x9a; xca; x00;
           x01; x23; x45; x67; x89; xab; xcd; xef;
           x00; x02; xbe; xef; x00; x07; x7f ])
  = (fixed_fields x00 x3b x9a xca x00 x01 x23 x45 x67 x89 xab xcd xef x00
       new_SignatureV3,
     [xbe; xef; x00; x07; x7f],
     Err (UnsupportedError "public key algorithm 0")).
Proof.
  apply (parse_unsupported_algorithm new_SignatureV3 x03 x00 x3b x9a xca x00
           x01 x23 x45 x67 x89 xab xcd xef x00 x02 [xbe; xef; x00; x07; x7f]).
  - right. reflexivity.
  - discriminate.
  - discriminate.
  - discriminate.
Defined.

(** C6 on a version byte 4 and on a length byte 6. *)
Lemma parse_gates_example :
  fails_with UnsupportedVersion (parse (new_SignatureV3, [x04; x05]))
  /\ fails_with UnsupportedHashedLength (parse (new_SignatureV3, [x03; x06])).
Proof.
  split.
  - apply (proj1 (parse_version_and_length_gates new_SignatureV3 [x04; x05])).
    exists x04, [x05]. split; [reflexivity|]. unfold version_ok.
    intros [H|H]; discriminate H.
  - apply (proj1 (proj2 (parse_version_and_length_gates new_SignatureV3
                           [x03; x06]))).
    exists x03, x06, []. split; [reflexivity|]. split.
    + right. reflexivity.
    + discriminate.
Defined.

(** C7 on a DSA packet: r is the first integer, s the second. *)
Lemma parse_DSA_example :
  parse (new_SignatureV3, dsa_packet) = (dsa_record, [], Ret tt).
Proof.
  etransitivity.
  - apply (parse_DSA_order new_SignatureV3 x03 x01 x3b x9a xca x00
             x01 x23 x45 x67 x89 xab xcd xef x02 xbe xef SHA1
             [x00; x07; x7f; x00; x09; x01; x00]).
    + right. reflexivity.
    + reflexivity.
  - reflexivity.
Defined.

(** C8 on the worked packet. *)
Lemma parse_one_shape_example :
  (algo_rsa (PubKeyAlgo rsa_record) = true /\ rsa_shape rsa_record)
  \/ (PubKeyAlgo rsa_record = PubKeyAlgoDSA /\ dsa_shape rsa_record).
Proof.
  apply (parse_one_shape new_SignatureV3 rsa_record rsa_packet []);
    reflexivity.
Defined.

(** C9 on the worked packet: [parse] stores the time of the packet when it
    accepts it, and also when the source ends right behind the hashed
    material; and it reads back the seconds of a record whose time lies
    beyond 32 bits and between two seconds. *)
Lemma creation_time_example :
  CreationTime (fst (fst (parse (new_SignatureV3, rsa_packet))))
  = {| sec := 1000000000; nsec := 0 |}
  /\ parse (new_SignatureV3, firstn 7 rsa_packet)
     = (set_CreationTime {| sec := 1000000000; nsec := 0 |} new_SignatureV3,
        [], Err ErrUnexpectedEOF)
  /\ CreationTime
       (fst (fst (parse (new_SignatureV3, firstn 7 rsa_packet))))
     = {| sec := 1000000000; nsec := 0 |}
  /\ CreationTime
       (fst (fst (parse
          (new_SignatureV3,
           x03 :: x05
             :: written
                  (set_CreationTime
                     {| sec := 1000000000 + 2 ^ 32; nsec := 999 |} rsa_record)
                  [] ++ []))))
     = {| sec := 1000000000; nsec := 0 |}.
Proof.
  split; [|split; [|split]].
  - apply (proj1 (proj2 (proj2 (creation_time_on_the_wire rsa_record [])))
             new_SignatureV3 x03 x00 x3b x9a xca x00).
    right. reflexivity.
  - reflexivity.
  - apply (proj1 (proj2 (proj2 (creation_time_on_the_wire rsa_record [])))
             new_SignatureV3 x03 x00 x3b x9a xca x00 []).
    right. reflexivity.
  - apply (proj1 (proj2 (proj2 (proj2
             (creation_time_on_the_wire
                (set_CreationTime
                   {| sec := 1000000000 + 2 ^ 32; nsec := 999 |} rsa_record)
                []))))
             new_SignatureV3 x03 []).
    right. reflexivity.
Defined.

(** C10 on the worked record and on the zero record. *)
Lemma PrepareVerify_example :
  snd (PrepareVerify rsa_record) = Ret {| algorithm := SHA1; absorbed := [] |}
  /\ snd (PrepareVerify new_SignatureV3)
     = Err (UnsupportedError "hash function").
Proof.
  split.
  - apply (proj1 (proj2 (PrepareVerify_spec rsa_record))). reflexivity.
  - apply (proj1 (proj2 (proj2 (PrepareVerify_spec new_SignatureV3)))).
    reflexivity.
Defined.

(** [Serialize] on the record [parse] returns for a DSA packet: the RSA
    slot is nil, and the material check calls a method on it. *)
Lemma Serialize_parsed_DSA_panics :
  parse (new_SignatureV3, dsa_packet) = (dsa_record, [], Ret tt)
  /\ Serialize (dsa_record, [])
     = (dsa_record, firstn 17 (skipn 2 dsa_packet), Panic nil_dereference).
Proof.
  split; reflexivity.
Qed.

End Worked.

(** * Further properties of the codec *)

(** ** Successful and failing runs of [parse] *)

Section MoreParse.

Context {enc : Encoding} {tbl : LegacyHashTable}.

Lemma Uint64_range (b0 b1 b2 b3 b4 b5 b6 b7 : byte) :
  0 <= BigEndian.Uint64 [b0; b1; b2; b3; b4; b5; b6; b7] < 2 ^ 64.
Proof.
  rewrite Uint64_sum.
  pose proof (u8_range b0). pose proof (u8_range b1).
  pose proof (u8_range b2). pose proof (u8_range b3).
  pose proof (u8_range b4). pose proof (u8_range b5).
  pose proof (u8_range b6). pose proof (u8_range b7). lia.
Qed.

(** A run of [parse] that returned without error, taken apart: the source
    starts with nineteen bytes that pass the checks, and the record is what
    the tail left of [header_fields]. *)
Lemma parse_ok_inv (sig0 sig : SignatureV3) (r r' : Reader) :
  parse (sig0, r) = (sig, r', Ret tt) ->
  exists v ty t0 t1 t2 t3 k0 k1 k2 k3 k4 k5 k6 k7 a h g0 g1 tail hh,
    r = v :: x05 :: ty :: t0 :: t1 :: t2 :: t3
          :: k0 :: k1 :: k2 :: k3 :: k4 :: k5 :: k6 :: k7
          :: a :: h :: g0 :: g1 :: tail
    /\ version_ok v /\ algo_ok a = true
    /\ HashIdToHashWithSha1Md5 h = (hh, true)
    /\ let s := header_fields ty t0 t1 t2 t3 k0 k1 k2 k3 k4 k5 k6 k7
                              a hh g0 g1 sig0 in
       (algo_rsa a = true
        /\ exists m, ReadFrom new_MPI tail = (m, r', None)
                     /\ sig = set_RSASignature (Some m) s)
       \/ (algo_rsa a = false /\ a = PubKeyAlgoDSA
           /\ exists mr r1 ms,
               ReadFrom new_MPI tail = (mr, r1, None)
               /\ ReadFrom new_MPI r1 = (ms, r', None)
               /\ sig = set_DSASigS (Some ms) (set_DSASigR (Some mr) s)).
Proof.
  intros Hok.
  assert (V : parse_outcome sig0 r (sig, r', Ret tt))
    by (rewrite <- Hok; apply parse_view).
  inversion V as
    [ | | | |
    | v l ty t0 t1 t2 t3 k0 k1 k2 k3 k4 k5 k6 k7 a h g0 g1 r0 hh Hv Hl Har Hh Hbs Hrun
    | v l ty t0 t1 t2 t3 k0 k1 k2 k3 k4 k5 k6 k7 a h g0 g1 r0 hh Hv Hl Har Hd Hh Hbs Hrun ];
    apply length_check in Hl; subst l;
    exists v, ty, t0, t1, t2, t3, k0, k1, k2, k3, k4, k5, k6, k7, a, h, g0, g1, r0, hh;
    (split; [reflexivity|]); (split; [now apply version_check|]).
  - split; [now apply algo_rsa_ok|]. split; [exact Hh|]. left.
    split; [exact Har|].
    change (read_MPI set_RSASignature
        (header_fields ty t0 t1 t2 t3 k0 k1 k2 k3 k4 k5 k6 k7 a hh g0 g1 sig0, r0)
        = (sig, r', Ret tt)) in Hrun.
    rewrite read_MPI_eq in Hrun.
    destruct (ReadFrom new_MPI r0) as [[m r1] [e|]] eqn:E; [discriminate|].
    cbn [fst snd] in Hrun. injection Hrun as <- <-. exists m. split; reflexivity.
  - split; [now apply algo_dsa_ok|]. split; [exact Hh|]. right.
    split; [exact Har|]. split; [now apply byte_eqb_eq|].
    change (bind (read_MPI set_DSASigR) (fun _ => read_MPI set_DSASigS)
        (header_fields ty t0 t1 t2 t3 k0 k1 k2 k3 k4 k5 k6 k7 a hh g0 g1 sig0, r0)
        = (sig, r', Ret tt)) in Hrun.
    rewrite read_DSA_eq in Hrun.
    destruct (ReadFrom new_MPI r0) as [[mr r1] [e|]] eqn:E1; [discriminate|].
    destruct (ReadFrom new_MPI r1) as [[ms r2] [e|]] eqn:E2; [discriminate|].
    injection Hrun as <- <-. exists mr, r1, ms. repeat split; assumption || reflexivity.
Qed.

(** [parse] ends by returning, with or without an error, on every source
    and every record: the [unreachable] branch of its second switch is
    never taken. *)
Theorem parse_never_panics (sig0 : SignatureV3) (r : Reader) :
  snd (parse (sig0, r)) = Ret tt \/ exists e, snd (parse (sig0, r)) = Err e.
Proof.
  destruct (parse_view sig0 r); cbn [snd]; eauto.
  - rewrite read_MPI_eq. cbn [snd].
    destruct (snd (ReadFrom new_MPI r)); eauto.
  - rewrite read_DSA_eq.
    destruct (ReadFrom new_MPI r) as [[mr r1] [e|]]; cbn [snd]; eauto.
    destruct (ReadFrom new_MPI r1) as [[ms r2] [e|]]; cbn [snd]; eauto.
Qed.

(** Where the fields of a decoded record come from: the signature type is
    byte 2 of the source, the issuer key id the big-endian value of bytes 7
    to 14, the algorithm byte 15, the hash the table's reading of byte 16,
    and the hash tag bytes 17 and 18 as they are; byte 1 was 5. *)
Theorem parse_field_layout (sig0 sig : SignatureV3) (r r' : Reader) :
  parse (sig0, r) = (sig, r', Ret tt) ->
  exists v ty t0 t1 t2 t3 k0 k1 k2 k3 k4 k5 k6 k7 a h g0 g1 tail,
    r = v :: x05 :: ty :: t0 :: t1 :: t2 :: t3
          :: k0 :: k1 :: k2 :: k3 :: k4 :: k5 :: k6 :: k7
          :: a :: h :: g0 :: g1 :: tail
    /\ SigType sig = ty
    /\ IssuerKeyId sig
       = u8 k7 + u8 k6 * 2 ^ 8 + u8 k5 * 2 ^ 16 + u8 k4 * 2 ^ 24
         + u8 k3 * 2 ^ 32 + u8 k2 * 2 ^ 40 + u8 k1 * 2 ^ 48 + u8 k0 * 2 ^ 56
    /\ PubKeyAlgo sig = a
    /\ HashIdToHashWithSha1Md5 h = (Hash sig, true)
    /\ HashTag sig = (g0, g1).
Proof.
  intros Hok.
  destruct (parse_ok_inv _ _ _ _ Hok)
    as (v & ty & t0 & t1 & t2 & t3 & k0 & k1 & k2 & k3 & k4 & k5 & k6 & k7
        & a & h & g0 & g1 & tail & hh & -> & Hv & Ha & Hh & Hs).
  exists v, ty, t0, t1, t2, t3, k0, k1, k2, k3, k4, k5, k6, k7, a, h, g0, g1, tail.
  split; [reflexivity|]. rewrite <- Uint64_sum.
  destruct Hs as [(_ & m & _ & ->)|(_ & _ & mr & r1 & ms & _ & _ & ->)];
    cbn; auto.
Qed.

(** A decoded record has a key id within 64 bits, a creation time of whole
    seconds within 32 bits, and one of the three algorithm codes. *)
Theorem parse_fields_in_range (sig0 sig : SignatureV3) (r r' : Reader) :
  parse (sig0, r) = (sig, r', Ret tt) ->
  0 <= IssuerKeyId sig < 2 ^ 64
  /\ 0 <= sec (CreationTime sig) < 2 ^ 32
  /\ nsec (CreationTime sig) = 0
  /\ algo_ok (PubKeyAlgo sig) = true.
Proof.
  intros Hok.
  destruct (parse_ok_inv _ _ _ _ Hok)
    as (v & ty & t0 & t1 & t2 & t3 & k0 & k1 & k2 & k3 & k4 & k5 & k6 & k7
        & a & h & g0 & g1 & tail & hh & -> & Hv & Ha & Hh & Hs).
  pose proof (Uint64_range k0 k1 k2 k3 k4 k5 k6 k7).
  pose proof (Uint32_range t0 t1 t2 t3).
  destruct Hs as [(_ & m & _ & ->)|(_ & _ & mr & r1 & ms & _ & _ & ->)];
    cbn; auto.
Qed.

(** [parse] assigns only the slots of the shape it reads: after an RSA
    packet the DSA pair is what the record held before, after a DSA packet
    the RSA slot is. *)
Theorem parse_keeps_other_slots (sig0 sig : SignatureV3) (r r' : Reader) :
  parse (sig0, r) = (sig, r', Ret tt) ->
  (algo_rsa (PubKeyAlgo sig) = true
   /\ DSASigR sig = DSASigR sig0 /\ DSASigS sig = DSASigS sig0)
  \/ (PubKeyAlgo sig = PubKeyAlgoDSA
      /\ RSASignature sig = RSASignature sig0).
Proof.
  intros Hok.
  destruct (parse_ok_inv _ _ _ _ Hok)
    as (v & ty & t0 & t1 & t2 & t3 & k0 & k1 & k2 & k3 & k4 & k5 & k6 & k7
        & a & h & g0 & g1 & tail & hh & -> & Hv & Ha & Hh & Hs).
  destruct Hs as [(Hr & m & _ & ->)|(_ & Hd & mr & r1 & ms & _ & _ & ->)];
    cbn; auto.
Qed.

(** For both RSA codes [parse] reads one integer into [RSASignature] and
    leaves the source behind it; the slot is assigned also when the read
    fails. *)
Theorem parse_RSA_tail (sig0 : SignatureV3)
  (v ty t0 t1 t2 t3 k0 k1 k2 k3 k4 k5 k6 k7 a h g0 g1 : byte)
  (hh : crypto_Hash) (tail : Reader) :
  version_ok v ->
  a = PubKeyAlgoRSA \/ a = PubKeyAlgoRSASignOnly ->
  HashIdToHashWithSha1Md5 h = (hh, true) ->
  parse (sig0,
         v :: x05 :: ty :: t0 :: t1 :: t2 :: t3
           :: k0 :: k1 :: k2 :: k3 :: k4 :: k5 :: k6 :: k7
           :: a :: h :: g0 :: g1 :: tail)
  = let s := header_fields ty t0 t1 t2 t3 k0 k1 k2 k3 k4 k5 k6 k7
                           a hh g0 g1 sig0 in
    match ReadFrom new_MPI tail with
    | (m, r1, Some e) => (set_RSASignature (Some m) s, r1, Err e)
    | (m, r1, None) => (set_RSASignature (Some m) s, r1, Ret tt)
    end.
Proof.
  intros Hv Ha Hh. apply algo_rsa_spec in Ha.
  etransitivity.
  - apply parse_header; eauto using algo_rsa_ok.
  - rewrite Ha. reflexivity.
Qed.

End MoreParse.

Section MoreGates.

Context {enc : Encoding} {tbl : LegacyHashTable} {laws : EncodingLaws enc}.

(** Closes a case in which [parse] would have failed with another message,
    or inside the tail. *)
Ltac other_failure :=
  match goal with
  | H : (_ ++ _)%string = (_ ++ _)%string |- _ =>
      exfalso; revert H; unfold String.append; discriminate
  | H : _ = (_, _, Err (UnsupportedError _)) |- _ =>
      first [ apply (read_MPI_error set_RSASignature) in H
            | apply read_DSA_error in H ];
      discriminate H
  end.

(** A successful [parse] consumed a prefix of at least nineteen bytes, left
    the rest of the source as it was, and returns the same record whatever
    follows that prefix. *)
Theorem parse_is_local (sig0 sig : SignatureV3) (r r' : Reader) :
  parse (sig0, r) = (sig, r', Ret tt) ->
  exists c,
    r = c ++ r' /\ (19 <= List.length c)%nat
    /\ forall r'', parse (sig0, c ++ r'') = (sig, r'', Ret tt).
Proof.
  intros Hok.
  destruct (parse_ok_inv _ _ _ _ Hok)
    as (v & ty & t0 & t1 & t2 & t3 & k0 & k1 & k2 & k3 & k4 & k5 & k6 & k7
        & a & h & g0 & g1 & tail & hh & -> & Hv & Ha & Hh & Hs).
  destruct Hs as [(Hr & m & Hm & ->)|(Hr & Hd & mr & r1 & ms & H1 & H2 & ->)].
  - destruct (ReadFrom_local _ _ _ Hm) as (c & -> & Hc).
    exists ([v; x05; ty; t0; t1; t2; t3; k0; k1; k2; k3; k4; k5; k6; k7;
             a; h; g0; g1] ++ c).
    split; [reflexivity|]. split; [rewrite length_app; cbn; lia|].
    intros r''. cbn [app].
    etransitivity; [apply parse_header; eassumption|].
    rewrite Hr, read_MPI_eq, Hc. reflexivity.
  - destruct (ReadFrom_local _ _ _ H1) as (c1 & -> & Hc1).
    destruct (ReadFrom_local _ _ _ H2) as (c2 & -> & Hc2).
    exists ([v; x05; ty; t0; t1; t2; t3; k0; k1; k2; k3; k4; k5; k6; k7;
             a; h; g0; g1] ++ c1 ++ c2).
    split; [cbn [app]; rewrite <- app_assoc; reflexivity|].
    split; [rewrite length_app; cbn; lia|].
    intros r''. cbn [app]. rewrite <- app_assoc.
    etransitivity; [apply parse_header; eassumption|].
    rewrite Hr, read_DSA_eq, Hc1, Hc2. reflexivity.
Qed.

(** [parse] fails with the unsupported-public-key-algorithm error exactly
    on a source that holds an accepted version byte, the length byte 5, the
    thirteen bytes of type, time and key id, an algorithm byte outside the
    three codes, and the hash byte behind it. *)
Theorem parse_algorithm_gate (sig0 : SignatureV3) (r : Reader) :
  fails_with UnsupportedPublicKeyAlgorithm (parse (sig0, r))
  <-> exists v ty t0 t1 t2 t3 k0 k1 k2 k3 k4 k5 k6 k7 a h rest,
        r = v :: x05 :: ty :: t0 :: t1 :: t2 :: t3
              :: k0 :: k1 :: k2 :: k3 :: k4 :: k5 :: k6 :: k7
              :: a :: h :: rest
        /\ version_ok v /\ algo_ok a = false.
Proof.
  split.
  - intros (e & He & n & ->).
    pose proof (parse_view sig0 r) as V.
    destruct (parse (sig0, r)) as [[s r'] o]. cbn in He. subst o.
    inversion V as
      [ | | | v l ty t0 t1 t2 t3 k0 k1 k2 k3 k4 k5 k6 k7 a h r0 Hv Hl Ha Hbs
      | | | ]; subst; try other_failure.
    apply length_check in Hl. subst l.
    exists v, ty, t0, t1, t2, t3, k0, k1, k2, k3, k4, k5, k6, k7, a, h, r'.
    split; [reflexivity|]. split; [now apply version_check|assumption].
  - intros (v & ty & t0 & t1 & t2 & t3 & k0 & k1 & k2 & k3 & k4 & k5 & k6 & k7
            & a & h & rest & -> & Hv & Ha).
    apply version_check in Hv.
    unfold parse. cbn. rewrite Hv. cbn.
    change (u8 x05 =? 5) with true. cbn.
    fold (algo_ok a). rewrite Ha. cbn.
    eexists. split; [reflexivity|]. eexists. reflexivity.
Qed.

(** [parse] fails with the unsupported-hash error exactly on a source whose
    header is accepted through the algorithm byte and whose hash byte the
    table does not map. *)
Theorem parse_hash_gate (sig0 : SignatureV3) (r : Reader) :
  fails_with UnsupportedHashAlgorithm (parse (sig0, r))
  <-> exists v ty t0 t1 t2 t3 k0 k1 k2 k3 k4 k5 k6 k7 a h rest,
        r = v :: x05 :: ty :: t0 :: t1 :: t2 :: t3
              :: k0 :: k1 :: k2 :: k3 :: k4 :: k5 :: k6 :: k7
              :: a :: h :: rest
        /\ version_ok v /\ algo_ok a = true
        /\ snd (HashIdToHashWithSha1Md5 h) = false.
Proof.
  split.
  - intros (e & He & n & ->).
    pose proof (parse_view sig0 r) as V.
    destruct (parse (sig0, r)) as [[s r'] o]. cbn in He. subst o.
    inversion V as
      [ | | |
      | v l ty t0 t1 t2 t3 k0 k1 k2 k3 k4 k5 k6 k7 a h r0 hh Hv Hl Ha Hh Hbs
      | | ]; subst; try other_failure.
    apply length_check in Hl. subst l.
    exists v, ty, t0, t1, t2, t3, k0, k1, k2, k3, k4, k5, k6, k7, a, h, r'.
    split; [reflexivity|]. split; [now apply version_check|].
    split; [assumption|]. rewrite Hh. reflexivity.
  - intros (v & ty & t0 & t1 & t2 & t3 & k0 & k1 & k2 & k3 & k4 & k5 & k6 & k7
            & a & h & rest & -> & Hv & Ha & Hh).
    apply version_check in Hv.
    unfold parse. cbn. rewrite Hv. cbn.
    change (u8 x05 =? 5) with true. cbn.
    fold (algo_ok a). rewrite Ha. cbn.
    destruct (HashIdToHashWithSha1Md5 h) as [hh ok]. cbn in Hh. subst ok. cbn.
    eexists. split; [reflexivity|]. eexists. reflexivity.
Qed.

End MoreGates.

(** ** [Serialize] on any sink *)

Section AnyWriter.

Context {enc : Encoding} {tbl : LegacyHashTable} {prov : CryptoProvider}.
Context {W : Type} {wr : Writer W}.

(** Runs [Serialize] on a sink whose answers are not known, one case for
    each way a step can end. *)
Ltac run_Serialize :=
  unfold Serialize, bind, write, load, raise, ret, panic, call_Bytes,
    call_EncodedBytes; cbn;
  repeat (match goal with
          | |- context [match ?x with _ => _ end] =>
              lazymatch x with
              | context [match _ with _ => _ end] => fail
              | _ => destruct x eqn:?
              end
          end; cbn).

(** [Serialize] does not assign to the record, whatever the sink answers. *)
Theorem Serialize_keeps_record (sig : SignatureV3) (w : W) :
  fst (fst (Serialize (sig, w))) = sig.
Proof.
  run_Serialize; reflexivity.
Qed.

(** An error [Serialize] returns is the unsupported-hash error, the
    invalid-argument error of the material check, or an error that a
    [Write] of the sink returned. *)
Theorem Serialize_error_sources (sig : SignatureV3) (w : W) (e : error) :
  snd (Serialize (sig, w)) = Err e ->
  e = UnsupportedError ("hash function " ++ Hash_String (Hash sig))
  \/ MissingSignatureMaterial e
  \/ exists w1 p w2, Write w1 p = (w2, Some e).
Proof.
  run_Serialize; cbn [snd]; intros H; try discriminate H;
    injection H as <-; eauto 8.
  right. left. reflexivity.
Qed.

End AnyWriter.

(** ** When [Serialize] succeeds *)

Section MoreSerialize.

Context {enc : Encoding} {tbl : LegacyHashTable} {prov : CryptoProvider}.

(** The material check of [Serialize] lets a record through: the RSA slot
    holds a field, and that field or the one in the DSA r slot has bytes. *)
Definition material_present (sig : SignatureV3) : Prop :=
  exists mr, RSASignature sig = Some mr
             /\ (Bytes mr <> None
                 \/ exists md, DSASigR sig = Some md /\ Bytes md <> None).

Lemma is_nil_false {A} (x : option A) : is_nil x = false -> x <> None.
Proof. destruct x; [discriminate|]. intros H. discriminate H. Qed.

Ltac material_is_there :=
  eexists; split; [reflexivity|];
  first [ left; congruence
        | right; eexists; split; [reflexivity|];
          first [ congruence | apply is_nil_false; assumption ] ].

Ltac cases_of_Serialize :=
  rewrite Serialize_eq; cbv zeta;
  destruct (HashToHashIdWithSha1Md5 (Hash _)) as [? [|]] eqn:?; cbn [negb];
  repeat match goal with
         | |- context [match ?x with _ => _ end] =>
             lazymatch x with
             | context [match _ with _ => _ end] => fail
             | _ => destruct x eqn:?
             end
         end; cbn [snd fst negb is_nil] in *.

(** [Serialize] on a buffer returns without error exactly when the hash has
    a wire code, the material check passes, and either the algorithm is an
    RSA code, and then the RSA integer follows the seventeen bytes, or it is
    DSA with both integers set, and then r and s follow in that order. *)
Theorem Serialize_succeeds_iff (sig : SignatureV3) (w0 : list byte) :
  snd (Serialize (sig, w0)) = Ret tt
  <-> exists id,
        HashToHashIdWithSha1Md5 (Hash sig) = (id, true)
        /\ material_present sig
        /\ ((algo_rsa (PubKeyAlgo sig) = true
             /\ exists mr, RSASignature sig = Some mr
                /\ written sig w0
                   = (w0 ++ hashed_and_issuer sig)
                       ++ algorithms_and_tag sig id ++ EncodedBytes mr)
            \/ (PubKeyAlgo sig = PubKeyAlgoDSA
                /\ exists md ms, DSASigR sig = Some md /\ DSASigS sig = Some ms
                   /\ written sig w0
                      = (w0 ++ hashed_and_issuer sig)
                          ++ algorithms_and_tag sig id
                          ++ EncodedBytes md ++ EncodedBytes ms)).
Proof.
  unfold written, material_present. split.
  - cases_of_Serialize; intros H; try discriminate H;
      eexists; (split; [reflexivity|]); (split; [material_is_there|]);
      first [ left; split; [reflexivity|]; eexists; split; [reflexivity|];
              rewrite <- ?app_assoc; reflexivity
            | right; split; [now apply byte_eqb_eq|]; do 2 eexists;
              split; [reflexivity|]; split; [reflexivity|];
              rewrite <- ?app_assoc; reflexivity ].
  - intros (id & Hh & (mr & Hr & Hb) & Hs).
    rewrite Serialize_eq. cbv zeta. rewrite Hh, Hr. cbn [negb].
    assert (Hm : match Bytes mr with
                 | Some _ => Ret false
                 | None =>
                     match DSASigR sig with
                     | Some md => Ret (is_nil (Bytes md))
                     | None => Panic nil_dereference
                     end
                 end = Ret false).
    { destruct (Bytes mr); [reflexivity|].
      destruct Hb as [Hb|(md & -> & Hb)]; [contradiction|].
      destruct (Bytes md); [reflexivity|contradiction]. }
    rewrite Hm.
    destruct Hs as [(Ha & _)|(Hd & md & ms & -> & -> & _)].
    + rewrite Ha. reflexivity.
    + rewrite Hd. reflexivity.
Qed.

(** [Serialize] reaches its [impossible] panic exactly on a record that
    passes the hash lookup and the material check and carries an algorithm
    code outside the three it writes. *)
Theorem Serialize_impossible_iff (sig : SignatureV3) (w0 : list byte) :
  snd (Serialize (sig, w0)) = Panic "impossible"
  <-> snd (HashToHashIdWithSha1Md5 (Hash sig)) = true
      /\ material_present sig
      /\ algo_ok (PubKeyAlgo sig) = false.
Proof.
  unfold material_present, algo_ok. fold (algo_rsa (PubKeyAlgo sig)). split.
  - cases_of_Serialize; intros H; try discriminate H;
      (split; [reflexivity|]); (split; [material_is_there|]); reflexivity.
  - intros (Hh & (mr & Hr & Hb) & Ha).
    apply orb_false_iff in Ha as [Ha Hd].
    rewrite Serialize_eq. cbv zeta.
    destruct (HashToHashIdWithSha1Md5 (Hash sig)) as [id ok].
    cbn in Hh. subst ok. rewrite Hr. cbn [negb].
    assert (Hm : match Bytes mr with
                 | Some _ => Ret false
                 | None =>
                     match DSASigR sig with
                     | Some md => Ret (is_nil (Bytes md))
                     | None => Panic nil_dereference
                     end
                 end = Ret false).
    { destruct (Bytes mr); [reflexivity|].
      destruct Hb as [Hb|(md & -> & Hb)]; [contradiction|].
      destruct (Bytes md); [reflexivity|contradiction]. }
    rewrite Hm, Ha, Hd. reflexivity.
Qed.

(** A record that [parse] filled from a DSA packet, its RSA slot unset
    before, cannot be written back: [Serialize] panics on the nil RSA slot
    once the seventeen bytes of fixed width are out. *)
Theorem parse_then_Serialize_DSA (sig0 sig : SignatureV3) (r r' : Reader)
  (w0 : list byte) :
  (forall id hh, HashIdToHashWithSha1Md5 id = (hh, true) ->
                 HashToHashIdWithSha1Md5 hh = (id, true)) ->
  RSASignature sig0 = None ->
  parse (sig0, r) = (sig, r', Ret tt) ->
  PubKeyAlgo sig = PubKeyAlgoDSA ->
  exists id,
    Serialize (sig, w0)
    = (sig, (w0 ++ hashed_and_issuer sig) ++ algorithms_and_tag sig id,
       Panic nil_dereference).
Proof.
  intros Htbl H0 Hok Hd.
  destruct (parse_ok_inv _ _ _ _ Hok)
    as (v & ty & t0 & t1 & t2 & t3 & k0 & k1 & k2 & k3 & k4 & k5 & k6 & k7
        & a & h & g0 & g1 & tail & hh & -> & Hv & Ha & Hh & Hs).
  destruct Hs as [(Hr & m & _ & ->)|(_ & _ & mr & r1 & ms & _ & _ & ->)].
  - cbn in Hd. subst a. discriminate Hr.
  - exists h. apply Serialize_nil_RSA_slot.
    + apply Htbl. exact Hh.
    + exact H0.
Qed.

(** A DSA record whose RSA slot holds a field goes through [Serialize], r
    before s, and [parse] behind a version byte and the length byte 5 gives
    it back with the RSA slot unset and the creation time in whole seconds
    modulo 2^32. *)
Theorem DSA_round_trip (sig : SignatureV3) (mr md ms : MPI) (id v : byte)
  (rest : list byte) :
  PubKeyAlgo sig = PubKeyAlgoDSA ->
  RSASignature sig = Some mr -> DSASigR sig = Some md -> DSASigS sig = Some ms ->
  Bytes mr <> None \/ Bytes md <> None ->
  0 <= IssuerKeyId sig < 2 ^ 64 ->
  HashToHashIdWithSha1Md5 (Hash sig) = (id, true) ->
  HashIdToHashWithSha1Md5 id = (Hash sig, true) ->
  ReadFrom new_MPI (EncodedBytes md ++ EncodedBytes ms ++ rest)
  = (md, EncodedBytes ms ++ rest, None) ->
  ReadFrom new_MPI (EncodedBytes ms ++ rest) = (ms, rest, None) ->
  version_ok v ->
  exists body,
    Serialize (sig, []) = (sig, body, Ret tt)
    /\ parse (new_SignatureV3, v :: x05 :: body ++ rest)
       = (set_RSASignature None
            (set_CreationTime
               (time_Unix (uint32 (Unix (CreationTime sig)))) sig),
          rest, Ret tt).
Proof.
  intros Ha Hr Hd Hs Hb Hk Hid Hh Hread1 Hread2 Hv.
  eexists. split.
  - rewrite Serialize_eq. cbv zeta. rewrite Hid, Hr, Hd, Hs, Ha. cbn [negb].
    change (algo_rsa PubKeyAlgoDSA) with false.
    change (Byte.eqb PubKeyAlgoDSA PubKeyAlgoDSA) with true.
    destruct (Bytes mr) as [b|].
    + reflexivity.
    + destruct Hb as [Hb|Hb]; [contradiction|].
      destruct (Bytes md); [reflexivity|contradiction].
  - unfold hashed_and_issuer, algorithms_and_tag.
    unfold BigEndian.PutUint32 at 1. unfold BigEndian.PutUint64 at 1.
    cbn [app]. rewrite <- !app_assoc. cbn [app].
    etransitivity.
    { apply parse_header with (hh := Hash sig); try assumption.
      rewrite Ha. reflexivity. }
    rewrite Ha. change (algo_rsa PubKeyAlgoDSA) with false. cbv iota.
    rewrite read_DSA_eq, Hread1, Hread2.
    unfold header_fields, fixed_fields.
    change [to_byte (Z.shiftr ?x 56); to_byte (Z.shiftr ?x 48);
            to_byte (Z.shiftr ?x 40); to_byte (Z.shiftr ?x 32);
            to_byte (Z.shiftr ?x 24); to_byte (Z.shiftr ?x 16);
            to_byte (Z.shiftr ?x 8); to_byte ?x]
      with (BigEndian.PutUint64 x).
    change [to_byte (Z.shiftr ?x 24); to_byte (Z.shiftr ?x 16);
            to_byte (Z.shiftr ?x 8); to_byte ?x]
      with (BigEndian.PutUint32 x).
    rewrite Uint32_PutUint32 by apply uint32_range.
    rewrite Uint64_PutUint64 by exact Hk.
    destruct sig as [ty t k a hh [g0 g1] rs dr ds]. cbn in *. subst.
    reflexivity.
Qed.

End MoreSerialize.

(** ** The further properties on worked packets *)

Module Covered.

Import Legacy LegacyLaws.

(** A DSA record as a signing collaborator would have to leave it for
    [Serialize] to accept it: the DSA pair set and the RSA slot holding an
    allocated integer without bytes. *)
Definition dsa_signed_record : SignatureV3 :=
  {| SigType := x01;
     CreationTime := {| sec := 1000000000; nsec := 5 |};
     IssuerKeyId := 0x0123456789abcdef;
     PubKeyAlgo := PubKeyAlgoDSA;
     Hash := SHA1;
     HashTag := (xbe, xef);
     RSASignature := Some new_mpi;
     DSASigR := Some mpi_7F;
     DSASigS := Some {| bytes := Some [x01; x00]; bitLength := 9 |} |}.

(** The worked record with the code of an algorithm outside the closed
    set (16, ElGamal in RFC 4880). *)
Definition elgamal_record : SignatureV3 :=
  set_PubKeyAlgo x10 rsa_record.

(** A record that already went through [parse] on a DSA packet once. *)
Definition used_record : SignatureV3 :=
  set_DSASigR (Some mpi_7F) new_SignatureV3.

(** What [parse] makes of [used_record] on the worked RSA packet. *)
Definition reused_record : SignatureV3 :=
  set_DSASigR (Some mpi_7F) rsa_record.

(** The layout on the worked packet. *)
Lemma parse_field_layout_example :
  exists v ty t0 t1 t2 t3 k0 k1 k2 k3 k4 k5 k6 k7 a h g0 g1 tail,
    rsa_packet
    = v :: x05 :: ty :: t0 :: t1 :: t2 :: t3
        :: k0 :: k1 :: k2 :: k3 :: k4 :: k5 :: k6 :: k7
        :: a :: h :: g0 :: g1 :: tail
    /\ SigType rsa_record = ty
    /\ IssuerKeyId rsa_record
       = u8 k7 + u8 k6 * 2 ^ 8 + u8 k5 * 2 ^ 16 + u8 k4 * 2 ^ 24
         + u8 k3 * 2 ^ 32 + u8 k2 * 2 ^ 40 + u8 k1 * 2 ^ 48 + u8 k0 * 2 ^ 56
    /\ PubKeyAlgo rsa_record = a
    /\ HashIdToHashWithSha1Md5 h = (Hash rsa_record, true)
    /\ HashTag rsa_record = (g0, g1).
Proof.
  apply (parse_field_layout new_SignatureV3 rsa_record rsa_packet []).
  reflexivity.
Defined.

(** The ranges on the DSA packet. *)
Lemma parse_fields_in_range_example :
  0 <= IssuerKeyId dsa_record < 2 ^ 64
  /\ 0 <= sec (CreationTime dsa_record) < 2 ^ 32
  /\ nsec (CreationTime dsa_record) = 0
  /\ algo_ok (PubKeyAlgo dsa_record) = true.
Proof.
  apply (parse_fields_in_range new_SignatureV3 dsa_record dsa_packet []).
  reflexivity.
Defined.

(** A used record parsed again: the old DSA r stays next to the new RSA
    integer. *)
Lemma parse_into_used_record :
  (algo_rsa (PubKeyAlgo reused_record) = true
   /\ DSASigR reused_record = DSASigR used_record
   /\ DSASigS reused_record = DSASigS used_record)
  \/ (PubKeyAlgo reused_record = PubKeyAlgoDSA
      /\ RSASignature reused_record = RSASignature used_record).
Proof.
  apply (parse_keeps_other_slots used_record reused_record rsa_packet []).
  reflexivity.
Defined.

(** The worked packet followed by two more bytes. *)
Lemma parse_is_local_example :
  exists c,
    rsa_packet ++ [xff; xff] = c ++ [xff; xff] /\ (19 <= List.length c)%nat
    /\ forall r'', parse (new_SignatureV3, c ++ r'') = (rsa_record, r'', Ret tt).
Proof.
  apply (parse_is_local new_SignatureV3 rsa_record
           (rsa_packet ++ [xff; xff]) [xff; xff]).
  reflexivity.
Defined.

(** Algorithm code 16 with an unmapped hash byte: the algorithm is
    reported. *)
Lemma parse_algorithm_gate_example :
  fails_with UnsupportedPublicKeyAlgorithm
    (parse (new_SignatureV3,
            [ x03; x05; x00; x3b; x9a; xca; x00;
              x01; x23; x45; x67; x89; xab; xcd; xef; x10; x63 ])).
Proof.
  apply (proj2 (parse_algorithm_gate new_SignatureV3 _)).
  exists x03, x00, x3b, x9a, xca, x00, x01, x23, x45, x67, x89, xab, xcd, xef,
    x10, x63, [].
  repeat split. right. reflexivity.
Defined.

(** The hash byte 99 behind an RSA code. *)
Lemma parse_hash_gate_example :
  fails_with UnsupportedHashAlgorithm
    (parse (new_SignatureV3,
            [ x03; x05; x00; x3b; x9a; xca; x00;
              x01; x23; x45; x67; x89; xab; xcd; xef; x01; x63 ])).
Proof.
  apply (proj2 (parse_hash_gate new_SignatureV3 _)).
  exists x03, x00, x3b, x9a, xca, x00, x01, x23, x45, x67, x89, xab, xcd, xef,
    x01, x63, [].
  repeat split. right. reflexivity.
Defined.

(** An RSA sign-only packet of version 2, one byte left behind it. *)
Lemma parse_RSA_sign_only_example :
  parse (new_SignatureV3,
         [ x02; x05; x00; x3b; x9a; xca; x00;
           x01; x23; x45; x67; x89; xab; xcd; xef;
           x03; x02; xbe; xef; x00; x07; x7f; xaa ])
  = (set_PubKeyAlgo PubKeyAlgoRSASignOnly rsa_record, [xaa], Ret tt).
Proof.
  etransitivity.
  - apply (parse_RSA_tail new_SignatureV3 x02 x00 x3b x9a xca x00
             x01 x23 x45 x67 x89 xab xcd xef x03 x02 xbe xef SHA1
             [x00; x07; x7f; xaa]).
    + left. reflexivity.
    + right. reflexivity.
    + reflexivity.
  - reflexivity.
Defined.

(** The error of the record without material is of the second kind. *)
Lemma Serialize_error_sources_example :
  InvalidArgumentError
    "Signature: need to call Sign, SignUserId or SignKey before Serialize"
  = UnsupportedError ("hash function " ++ Hash_String (Hash unsigned_record))
  \/ MissingSignatureMaterial
       (InvalidArgumentError
          "Signature: need to call Sign, SignUserId or SignKey before Serialize")
  \/ exists (w1 p w2 : list byte),
       Write w1 p
       = (w2, Some (InvalidArgumentError
            "Signature: need to call Sign, SignUserId or SignKey before Serialize")).
Proof.
  apply (Serialize_error_sources unsigned_record (@nil byte)).
  reflexivity.
Defined.

(** A record with algorithm code 16. *)
Lemma Serialize_impossible_example :
  snd (Serialize (elgamal_record, @nil byte)) = Panic "impossible".
Proof.
  apply (proj2 (Serialize_impossible_iff elgamal_record [])).
  split; [reflexivity|]. split; [|reflexivity].
  exists mpi_7F. split; [reflexivity|]. left. discriminate.
Defined.

(** A DSA record with an allocated RSA slot is written. *)
Lemma Serialize_succeeds_example :
  snd (Serialize (dsa_signed_record, @nil byte)) = Ret tt.
Proof.
  apply (proj2 (Serialize_succeeds_iff dsa_signed_record [])).
  exists x02. split; [reflexivity|]. split.
  - exists new_mpi. split; [reflexivity|]. right.
    exists mpi_7F. split; [reflexivity|discriminate].
  - right. split; [reflexivity|].
    do 2 eexists. split; [reflexivity|]. split; reflexivity.
Defined.

(** The DSA packet, parsed and written back. *)
Lemma parse_then_Serialize_DSA_example :
  exists id,
    Serialize (dsa_record, [])
    = (dsa_record,
       ([] ++ hashed_and_issuer dsa_record) ++ algorithms_and_tag dsa_record id,
       Panic nil_dereference).
Proof.
  apply (parse_then_Serialize_DSA new_SignatureV3 dsa_record dsa_packet [] []).
  - exact table_inverse.
  - reflexivity.
  - reflexivity.
  - reflexivity.
Defined.

(** The DSA record out and back. *)
Lemma DSA_round_trip_example :
  exists body,
    Serialize (dsa_signed_record, []) = (dsa_signed_record, body, Ret tt)
    /\ parse (new_SignatureV3, x03 :: x05 :: body ++ [])
       = (set_RSASignature None
            (set_CreationTime
               (time_Unix (uint32 (Unix (CreationTime dsa_signed_record))))
               dsa_signed_record),
          [], Ret tt).
Proof.
  apply (DSA_round_trip dsa_signed_record new_mpi mpi_7F
           {| bytes := Some [x01; x00]; bitLength := 9 |} x02 x03 []);
    try reflexivity.
  - right. discriminate.
  - cbn. lia.
  - right. reflexivity.
Defined.

End Covered.
